(** * ws-manager: snapshot, backup, admission and timeout operations

    A shallow embedding of [components/ws-manager/pkg/manager/manager_ee.go].
    The five gRPC handlers of the manager ([TakeSnapshot], [GetVolumeSnapshot],
    [ControlAdmission], [SetTimeout], [BackupWorkspace]) are translated
    statement by statement into a small state monad over the cluster (the
    tracing spans and log fields they set up do not affect what they return
    or change, and are left out).  The helpers they call on the receiver (pod
    lookup, status derivation, the mark operation, the daemon client, the
    volume-snapshot calls) live in other files of the package; they are
    fields of the [Manager] record, so every theorem holds for any
    implementation of them. *)

From stdpp Require Import base option strings pretty gmap list.
From Stdlib Require Import ZArith Ascii String.

Local Open Scope string_scope.
Local Open Scope Z_scope.

(** ** gRPC status codes and Go errors *)

(** google.golang.org/grpc/codes *)
Inductive Code :=
| OK | Canceled | Unknown | InvalidArgument | DeadlineExceeded | NotFound
| AlreadyExists | PermissionDenied | ResourceExhausted | FailedPrecondition
| Aborted | OutOfRange | Unimplemented | Internal | Unavailable | DataLoss
| Unauthenticated.

Global Instance Code_eq_dec : EqDecision Code.
Proof. solve_decision. Defined.

(** A Go [error] value.  The message of a formatted error is kept as the
    format string with its operands rather than rendered: no property below depends
    on the rendered text, only on which error it is and what it carries. *)
#[warnings="-register-all"]
Inductive error :=
| StatusError (c : Code) (format : string) (args : list fmtArg)
    (* status.Errorf(c, format, args...) *)
| XError (format : string) (args : list fmtArg) (unwrap : option error)
    (* xerrors.Errorf(format, args...); [unwrap] is what its Unwrap method
       returns: the operand of %w when it wraps one, and nothing when the
       operands are only formatted into the message (%v, %s, %q) *)
| K8sStatusError (httpCode : Z) (message : string)
    (* k8s.io/apimachinery StatusError *)
| PlainError (message : string)
    (* errors.New(message) *)
with fmtArg :=
| AStr (s : string)
| AErr (e : error).

(** The double-quote character, for format strings that contain one. *)
Definition dquote : string := String (ascii_of_nat 34) EmptyString.

(** status.Errorf *)
Definition status_Errorf (c : Code) (format : string) (args : list fmtArg) : error :=
  StatusError c format args.

(** Whether a format string ends in ": %w". *)
Definition ends_in_wrap_verb (format : string) : bool :=
  let n := String.length format in
  (4 <=? n)%nat && String.eqb (String.substring (n - 4) 4 format) ": %w".

(** xerrors.Errorf.  The error wraps its last operand when the format ends
    in ": %w" and that operand is an error, which is how the handlers below
    use the verb; otherwise the operands only appear in the message. *)
Definition xerrors_Errorf (format : string) (args : list fmtArg) : error :=
  XError format args
    (if ends_in_wrap_verb format
     then match last args with Some (AErr e) => Some e | _ => None end
     else None).

(** status.Code of a non-nil error.  An error that is itself a status has
    the code of that status, and an error that neither is nor wraps one is
    [Unknown].  For an error that wraps another the answer depends on the
    grpc module: from v1.55 on status.Code follows Unwrap ([looks_through =
    true]); before, it looks at the error itself only and answers
    [Unknown]. *)
Fixpoint status_Code_at (looks_through : bool) (e : error) : Code :=
  match e with
  | StatusError c _ _ => c
  | XError _ _ (Some e') => if looks_through then status_Code_at looks_through e' else Unknown
  | XError _ _ None => Unknown
  | K8sStatusError _ _ => Unknown
  | PlainError _ => Unknown
  end.

(** The class a caller reads off a returned error.  The handlers return
    their own classes as statuses, for which every version of the module
    gives the same code. *)
Definition status_Code (e : error) : Code := status_Code_at false e.

(** Modelled from the spec: [isKubernetesObjNotFoundError] is declared in
    another file of the package.  Per section 4.1 it recognises the cluster's
    answer that the pod does not exist, i.e. an API status error carrying HTTP
    404; every other error (and nil) is not a not-found error. *)
Definition isKubernetesObjNotFoundError (e : error) : bool :=
  match e with
  | K8sStatusError c _ => bool_decide (c = 404)
  | _ => false
  end.

(** Go's [(value, error)] return pair: either the value or a non-nil error. *)
Definition result (A : Type) : Type := A + error.

(** ** Cluster and API data *)

(** The part of corev1.Pod the handlers and the helpers read. *)
Inductive PodPhase := PodPending | PodRunning | PodSucceeded | PodFailed | PodUnknown.

Record Pod := {
  Name : string;
  Labels : gmap string string;
  Annotations : gmap string string;
  DeletionTimestamp : option Z;
  Phase : PodPhase;
}.

(** Modelled from the spec: the struct [workspaceObjects] is declared in
    another file.  Section 3: the pod plus any sidecar objects needed to
    compute the status; the handlers only build it from a pod and read its
    pod back. *)
Record workspaceObjects := {
  wso_Pod : Pod;
  wso_Sidecar : list string;
}.

(** [workspaceObjects{Pod: pod}] *)
Definition workspaceObjects_of_pod (pod : Pod) : workspaceObjects :=
  {| wso_Pod := pod; wso_Sidecar := [] |}.

(** Modelled from the spec: the generated enum api.WorkspacePhase.  Section
    4.5 names CREATING, RUNNING, STOPPING and STOPPED "at least"; the other
    members are the remaining values of the ws-manager API. *)
Inductive WorkspacePhase :=
| WorkspacePhase_UNKNOWN | WorkspacePhase_PENDING | WorkspacePhase_CREATING
| WorkspacePhase_INITIALIZING | WorkspacePhase_RUNNING
| WorkspacePhase_INTERRUPTED | WorkspacePhase_STOPPING | WorkspacePhase_STOPPED.

Global Instance WorkspacePhase_eq_dec : EqDecision WorkspacePhase.
Proof. solve_decision. Defined.

Record WorkspaceStatus := {
  sts_Phase : WorkspacePhase;
  sts_OwnerID : string;
  sts_WorkspaceID : string;
}.

(** Modelled from the spec: [addMark] and the annotation type are declared in
    another file.  Section 4.4: a mark adds or overwrites one annotation and
    never removes another. *)
Inductive annotation := addMark (name value : string).

(** Request and response messages of the manager API and of the daemon API. *)
Record TakeSnapshotRequest := {
  tsq_Id : string;
  tsq_ReturnImmediately : bool;
}.
Record TakeSnapshotResponse := { tsr_Url : string }.
Record GetVolumeSnapshotRequest := { gvq_Id : string }.
Record GetVolumeSnapshotResponse := { gvr_Id : string; gvr_Ready : bool }.
Record ControlAdmissionRequest := { caq_Id : string; caq_Level : Z (* int32 enum *) }.
Record ControlAdmissionResponse := { }.
Record SetTimeoutRequest := { stq_Id : string; stq_Duration : string }.
Record SetTimeoutResponse := { }.
Record BackupWorkspaceRequest := { bwq_Id : string }.
Record BackupWorkspaceResponse := { bwr_Url : string }.

(** wsdaemon.TakeSnapshotRequest / wsdaemon.BackupWorkspaceRequest and their
    responses *)
Record DaemonTakeSnapshotRequest := {
  dtq_Id : string;
  dtq_ReturnImmediately : bool;
}.
Record DaemonTakeSnapshotResponse := { dtr_Url : string }.
Record DaemonBackupWorkspaceRequest := { dbq_Id : string }.
Record DaemonBackupWorkspaceResponse := { dbr_Url : string }.

(** m.Config.WorkspaceClasses[...].PVC.SnapshotClass *)
Record PVCConfiguration := { SnapshotClass : string }.
Record WorkspaceClass := { PVC : PVCConfiguration }.
Record Configuration := { WorkspaceClasses : gmap string WorkspaceClass }.

(** ** strings.ToLower on the ASCII range *)

Definition lower_ascii (c : ascii) : ascii :=
  let n := nat_of_ascii c in
  if (65 <=? n)%nat && (n <=? 90)%nat then ascii_of_nat (n + 32) else c.

(** strings.ToLower; bytes outside A-Z are kept (the names it is applied to
    are enum identifiers). *)
Fixpoint strings_ToLower (s : string) : string :=
  match s with
  | EmptyString => EmptyString
  | String c s' => String (lower_ascii c) (strings_ToLower s')
  end.

(** [fmt.Sprintf("snapshot-%s-%d", workspaceID, now)]; %d of an int64 is its
    decimal numeral, with a leading minus sign when negative. *)
Definition Sprintf_snapshot (workspaceID : string) (now : Z) : string :=
  "snapshot-" +:+ workspaceID +:+ "-" +:+ pretty now.

(** ** The manager and its effects *)

(** What the handlers ask of the cluster, the clock and the node daemon, in
    call order.  The trace is how "the daemon is never contacted" and "no
    mark is attempted" are observed. *)
Inductive Call :=
| CallFindWorkspacePod (workspaceID : string)
| CallGetWorkspaceObjects (pod : Pod)
| CallTimeNow
| CallCreateWorkspaceSnapshotFromPVC
    (pvcName pvcVolumeSnapshotName pvcVolumeSnapshotClassName workspaceID : string)
    (labels : gmap string string)
| CallWaitForWorkspaceVolumeSnapshotReady (pvcVolumeSnapshotName : string)
| CallCheckWorkspaceVolumeSnapshotIsReady (snapshotID : string)
| CallConnectToWorkspaceDaemon (wso : workspaceObjects)
| CallDaemonTakeSnapshot (req : DaemonTakeSnapshotRequest)
| CallDaemonBackupWorkspace (req : DaemonBackupWorkspaceRequest)
| CallMarkWorkspace (workspaceID : string) (a : annotation).

(** The calls that are only reads of the cluster or of the clock. *)
Definition is_read (c : Call) : bool :=
  match c with
  | CallFindWorkspacePod _ | CallGetWorkspaceObjects _ | CallTimeNow
  | CallCheckWorkspaceVolumeSnapshotIsReady _ => true
  | _ => false
  end.

Definition is_mark (c : Call) : bool :=
  match c with CallMarkWorkspace _ _ => true | _ => false end.

Definition is_daemon (c : Call) : bool :=
  match c with
  | CallConnectToWorkspaceDaemon _ | CallDaemonTakeSnapshot _
  | CallDaemonBackupWorkspace _ => true
  | _ => false
  end.

Definition is_snapshot_strategy (c : Call) : bool :=
  match c with
  | CallCreateWorkspaceSnapshotFromPVC _ _ _ _ _
  | CallWaitForWorkspaceVolumeSnapshotReady _
  | CallConnectToWorkspaceDaemon _ | CallDaemonTakeSnapshot _ => true
  | _ => false
  end.

Section Manager.
(** [W]: the state of everything outside the handler (cluster object store,
    daemons, clock).  [Conn]: a daemon client connection. *)
Context {W Conn : Type}.

(** Declarations of other packages the handlers refer to: label and
    annotation keys, the generated enum-name table of the API, Go's
    time.ParseDuration (whose errors are errors.New values; the parsed
    duration is int64 nanoseconds), and whether the grpc module the package
    is built with is v1.55 or later, where status.Code follows Unwrap (the
    module version is fixed by go.mod). *)
Record Externals := {
  pvcWorkspaceFeatureLabel : string;
  workspaceClassLabel : string;
  customTimeoutAnnotation : string;
  WorkspaceAdmissionAnnotation : string;
  AdmissionLevel_name : gmap Z string;
  time_ParseDuration : string -> Z + string;
  grpc_unwraps : bool;
}.

(** The receiver [m *Manager]: its configuration and the methods the
    handlers call.  Reads are functions of the state; everything that can
    change the cluster or takes time returns the next state. *)
Record Manager := {
  Config : Configuration;
  findWorkspacePod : W -> string -> result Pod;
  getWorkspaceObjects : W -> Pod -> result workspaceObjects;
  getWorkspaceStatus : workspaceObjects -> result WorkspaceStatus;
  WorkspaceID : workspaceObjects -> string * bool;
  time_Now_UnixNano : W -> Z;
  createWorkspaceSnapshotFromPVC :
    W -> string -> string -> string -> string -> gmap string string ->
    option error * W;
  waitForWorkspaceVolumeSnapshotReady :
    W -> string -> (bool * option error) * W;
  checkWorkspaceVolumeSnapshotIsReady : W -> string -> result bool;
  connectToWorkspaceDaemon : W -> workspaceObjects -> result Conn * W;
  sync_TakeSnapshot :
    W -> Conn -> DaemonTakeSnapshotRequest ->
    result DaemonTakeSnapshotResponse * W;
  sync_BackupWorkspace :
    W -> Conn -> DaemonBackupWorkspaceRequest ->
    result DaemonBackupWorkspaceResponse * W;
  markWorkspace : W -> string -> annotation -> option error * W;
}.

(** The state a handler runs in: the outside world and the calls made so
    far (most recent last). *)
Record mstate := { world : W; trace : list Call }.

Definition M (A : Type) : Type := mstate -> A * mstate.

#[local] Instance M_ret : MRet M := fun A a st => (a, st).
#[local] Instance M_bind : MBind M := fun A B f ma st =>
  let '(a, st') := ma st in f a st'.

Definition logged (c : Call) (st : mstate) : list Call := trace st ++ [c].

(** A read: the state of the world is left as it is. *)
Definition reading {A} (c : Call) (f : W -> A) : M A := fun st =>
  (f (world st), {| world := world st; trace := logged c st |}).

(** An action: the world moves on. *)
Definition acting {A} (c : Call) (f : W -> A * W) : M A := fun st =>
  let '(a, w') := f (world st) in
  (a, {| world := w'; trace := logged c st |}).

Variable X : Externals.
Variable m : Manager.

(** TakeSnapshot creates a copy of the workspace content and stores it so
    that another workspace can be created from it. *)
Definition TakeSnapshot (req : TakeSnapshotRequest) : M (result TakeSnapshotResponse) :=
  r ← reading (CallFindWorkspacePod (tsq_Id req)) (λ w, findWorkspacePod m w (tsq_Id req));
  match r with
  | inr err =>
      if isKubernetesObjNotFoundError err then
        mret (inr (status_Errorf NotFound "workspace %s does not exist" [AStr (tsq_Id req)]))
      else
        mret (inr (status_Errorf Internal "cannot get workspace status: %q" [AErr err]))
  | inl pod =>
  r ← reading (CallGetWorkspaceObjects pod) (λ w, getWorkspaceObjects m w pod);
  match r with
  | inr err =>
      mret (inr (status_Errorf Internal "cannot get workspace status: %q" [AErr err]))
  | inl wso =>
  match getWorkspaceStatus m wso with
  | inr err =>
      mret (inr (status_Errorf Internal "cannot get workspace status: %q" [AErr err]))
  | inl sts =>
  if bool_decide (sts_Phase sts ≠ WorkspacePhase_RUNNING) then
    mret (inr (status_Errorf FailedPrecondition "can only take snapshots of running workspaces" []))
  else
  let pvcFeatureEnabled :=
    bool_decide (is_Some (Labels (wso_Pod wso) !! pvcWorkspaceFeatureLabel X)) in
  let pvcVolumeSnapshotClassName :=
    match Labels (wso_Pod wso) !! workspaceClassLabel X with
    | Some wsClassName =>
        match WorkspaceClasses (Config m) !! wsClassName with
        | Some workspaceClass => SnapshotClass (PVC workspaceClass)
        | None => EmptyString
        end
    | None => EmptyString
    end in
  if pvcFeatureEnabled then
    let workspaceID := fst (WorkspaceID m wso) in
    now ← reading CallTimeNow (time_Now_UnixNano m);
    let pvcVolumeSnapshotName := Sprintf_snapshot workspaceID now in
    let pvcName := Name (wso_Pod wso) in
    err ← acting (CallCreateWorkspaceSnapshotFromPVC pvcName pvcVolumeSnapshotName
                    pvcVolumeSnapshotClassName workspaceID (Labels (wso_Pod wso)))
                 (λ w, createWorkspaceSnapshotFromPVC m w pvcName pvcVolumeSnapshotName
                         pvcVolumeSnapshotClassName workspaceID (Labels (wso_Pod wso)));
    match err with
    | Some err =>
        mret (inr (status_Errorf Internal "cannot create volume snapshot from pvc: %q" [AErr err]))
    | None =>
    if negb (tsq_ReturnImmediately req) then
      '(ready, err) ← acting (CallWaitForWorkspaceVolumeSnapshotReady pvcVolumeSnapshotName)
                        (λ w, waitForWorkspaceVolumeSnapshotReady m w pvcVolumeSnapshotName);
      match err with
      | Some err =>
          mret (inr (status_Errorf Internal "cannot wait for volume snapshot to be ready: %q" [AErr err]))
      | None =>
      if negb ready then
        mret (inr (status_Errorf Internal "volume snapshot is not ready" []))
      else
        mret (inl {| tsr_Url := pvcVolumeSnapshotName |})
      end
    else
      mret (inl {| tsr_Url := pvcVolumeSnapshotName |})
    end
  else
    sync ← acting (CallConnectToWorkspaceDaemon (workspaceObjects_of_pod pod))
                  (λ w, connectToWorkspaceDaemon m w (workspaceObjects_of_pod pod));
    match sync with
    | inr err =>
        mret (inr (status_Errorf Unavailable "cannot connect to workspace daemon: %q" [AErr err]))
    | inl sync =>
    let dreq := {| dtq_Id := tsq_Id req; dtq_ReturnImmediately := tsq_ReturnImmediately req |} in
    r ← acting (CallDaemonTakeSnapshot dreq) (λ w, sync_TakeSnapshot m w sync dreq);
    match r with
    | inr err =>
        (* err is already a grpc error *)
        mret (inr err)
    | inl r => mret (inl {| tsr_Url := dtr_Url r |})
    end
    end
  end end end.

(** GetVolumeSnapshot returns volume snapshot information *)
Definition GetVolumeSnapshot (req : GetVolumeSnapshotRequest) : M (result GetVolumeSnapshotResponse) :=
  r ← reading (CallCheckWorkspaceVolumeSnapshotIsReady (gvq_Id req))
              (λ w, checkWorkspaceVolumeSnapshotIsReady m w (gvq_Id req));
  match r with
  | inr err =>
      if bool_decide (status_Code_at (grpc_unwraps X) err = NotFound) then
        mret (inr (status_Errorf NotFound "volume snapshot %s does not exist" [AStr (gvq_Id req)]))
      else
        mret (inr (status_Errorf Internal "cannot check if volume snapshot is ready: %q" [AErr err]))
  | inl ready =>
      mret (inl {| gvr_Id := gvq_Id req; gvr_Ready := ready |})
  end.

(** ControlAdmission makes a workspace accessible for everyone or for the
    owner only *)
Definition ControlAdmission (req : ControlAdmissionRequest) : M (result ControlAdmissionResponse) :=
  r ← reading (CallFindWorkspacePod (caq_Id req)) (λ w, findWorkspacePod m w (caq_Id req));
  match r with
  | inr err =>
      if isKubernetesObjNotFoundError err then
        mret (inr (status_Errorf NotFound "workspace %s does not exist" [AStr (caq_Id req)]))
      else
        mret (inr (status_Errorf Internal "cannot get workspace status: %q" [AErr err]))
  | inl pod =>
  r ← reading (CallGetWorkspaceObjects pod) (λ w, getWorkspaceObjects m w pod);
  match r with
  | inr err =>
      mret (inr (status_Errorf Internal "cannot get workspace status: %q" [AErr err]))
  | inl wso =>
  match getWorkspaceStatus m wso with
  | inr err =>
      mret (inr (status_Errorf Internal "cannot get workspace status: %q" [AErr err]))
  | inl sts =>
  if bool_decide (sts_Phase sts = WorkspacePhase_STOPPING)
     || bool_decide (sts_Phase sts = WorkspacePhase_STOPPED) then
    mret (inr (status_Errorf FailedPrecondition "cannot control admission of stopping workspaces" []))
  else
  match AdmissionLevel_name X !! caq_Level req with
  | None =>
      mret (inr (status_Errorf InvalidArgument "invalid admission level" []))
  | Some val =>
  (* lowercase is just for vanity's sake *)
  let val := strings_ToLower val in
  err ← acting (CallMarkWorkspace (caq_Id req) (addMark (WorkspaceAdmissionAnnotation X) val))
               (λ w, markWorkspace m w (caq_Id req) (addMark (WorkspaceAdmissionAnnotation X) val));
  match err with
  | Some err =>
      mret (inr (status_Errorf Internal "cannot change workspace admission level: %q" [AErr err]))
  | None => mret (inl Build_ControlAdmissionResponse)
  end
  end end end end.

(** SetTimeout changes the default timeout for a running workspace *)
Definition SetTimeout (req : SetTimeoutRequest) : M (result SetTimeoutResponse) :=
  match time_ParseDuration X (stq_Duration req) with
  | inr msg =>
      mret (inr (xerrors_Errorf ("invalid duration " +:+ dquote +:+ "%s" +:+ dquote +:+ ": %w")
                   [AStr (stq_Duration req); AErr (PlainError msg)]))
  | inl _ =>
  err ← acting (CallMarkWorkspace (stq_Id req) (addMark (customTimeoutAnnotation X) (stq_Duration req)))
               (λ w, markWorkspace m w (stq_Id req) (addMark (customTimeoutAnnotation X) (stq_Duration req)));
  match err with
  | Some err =>
      mret (inr (xerrors_Errorf "cannot set workspace timeout: %w" [AErr err]))
  | None => mret (inl Build_SetTimeoutResponse)
  end
  end.

(** BackupWorkspace attempts to create a backup of the workspace, ignoring
    its perceived current status as much as it can *)
Definition BackupWorkspace (req : BackupWorkspaceRequest) : M (result BackupWorkspaceResponse) :=
  r ← reading (CallFindWorkspacePod (bwq_Id req)) (λ w, findWorkspacePod m w (bwq_Id req));
  match r with
  | inr err =>
      if isKubernetesObjNotFoundError err then
        mret (inr (status_Errorf NotFound "workspace pod for %s does not exist" [AStr (bwq_Id req)]))
      else
        mret (inr (status_Errorf Internal "cannot get workspace pod: %q" [AErr err]))
  | inl pod =>
  sync ← acting (CallConnectToWorkspaceDaemon (workspaceObjects_of_pod pod))
                (λ w, connectToWorkspaceDaemon m w (workspaceObjects_of_pod pod));
  match sync with
  | inr err =>
      mret (inr (status_Errorf Unavailable "cannot connect to workspace daemon: %q" [AErr err]))
  | inl sync =>
  let dreq := {| dbq_Id := bwq_Id req |} in
  r ← acting (CallDaemonBackupWorkspace dreq) (λ w, sync_BackupWorkspace m w sync dreq);
  match r with
  | inr err =>
      (* err is already a grpc error *)
      mret (inr err)
  | inl r => mret (inl {| bwr_Url := dbr_Url r |})
  end
  end end.

End Manager.

Arguments Manager : clear implicits.
Arguments mstate : clear implicits.
Arguments M : clear implicits.

(** ** A small cluster to run the handlers on

    A concrete state and implementation of the helpers, used for the worked
    examples.  The general theorems do not depend on it. *)
Module Sim.

(** Modelled from the spec: the helpers of the package that are declared
    outside manager_ee.go, over a cluster that holds the pods by workspace
    ID, the volume snapshots by name with their readiness, the wall clock,
    and the node daemon (absent when unreachable, otherwise the answer its
    RPCs give). *)
Record world := {
  pods : gmap string Pod;
  snapshots : gmap string bool;
  clock : Z;
  daemon : option (result string);
  snapshotter_running : bool;
}.

Definition not_found (what : string) : error := K8sStatusError 404 what.

(** Modelled from the spec: [findWorkspacePod], section 4.1: the pod of the
    workspace, or the cluster's not-found error when there is none. *)
Definition findWorkspacePod (w : world) (workspaceID : string) : result Pod :=
  match pods w !! workspaceID with
  | Some pod => inl pod
  | None => inr (not_found workspaceID)
  end.

(** Modelled from the spec: [getWorkspaceObjects], section 4.1; this cluster
    has no sidecar objects. *)
Definition getWorkspaceObjects (w : world) (pod : Pod) : result workspaceObjects :=
  inl (workspaceObjects_of_pod pod).

(** Modelled from the spec: the method [WorkspaceID] of workspaceObjects;
    here the ID is kept in an annotation of the pod. *)
Definition WorkspaceID (wso : workspaceObjects) : string * bool :=
  match Annotations (wso_Pod wso) !! "gitpod/id" with
  | Some id => (id, true)
  | None => (EmptyString, false)
  end.

(** Modelled from the spec: the phase, section 4.5, derived from the pod: a
    finished pod is STOPPED, a pod being deleted is STOPPING, a pending pod is
    CREATING and a running one RUNNING. *)
Definition phase_of (pod : Pod) : WorkspacePhase :=
  match Phase pod with
  | PodSucceeded | PodFailed => WorkspacePhase_STOPPED
  | ph =>
      match DeletionTimestamp pod, ph with
      | Some _, _ => WorkspacePhase_STOPPING
      | None, PodPending => WorkspacePhase_CREATING
      | None, PodRunning => WorkspacePhase_RUNNING
      | None, _ => WorkspacePhase_UNKNOWN
      end
  end.

Definition status_of (wso : workspaceObjects) : WorkspaceStatus :=
  {| sts_Phase := phase_of (wso_Pod wso);
     sts_OwnerID := default EmptyString (Labels (wso_Pod wso) !! "owner");
     sts_WorkspaceID := fst (WorkspaceID wso) |}.

Definition getWorkspaceStatus (wso : workspaceObjects) : result WorkspaceStatus :=
  inl (status_of wso).

Definition set_pods (w : world) (ps : gmap string Pod) : world :=
  {| pods := ps; snapshots := snapshots w; clock := clock w;
     daemon := daemon w; snapshotter_running := snapshotter_running w |}.

Definition set_snapshots (w : world) (ss : gmap string bool) : world :=
  {| pods := pods w; snapshots := ss; clock := clock w;
     daemon := daemon w; snapshotter_running := snapshotter_running w |}.

Definition annotate (pod : Pod) (a : annotation) : Pod :=
  let 'addMark name value := a in
  {| Name := Name pod; Labels := Labels pod;
     Annotations := <[name := value]> (Annotations pod);
     DeletionTimestamp := DeletionTimestamp pod; Phase := Phase pod |}.

(** Modelled from the spec: [markWorkspace], section 4.4: add or overwrite
    one annotation of the pod, never remove another; it fails when the pod
    cannot be found. *)
Definition markWorkspace (w : world) (workspaceID : string) (a : annotation)
  : option error * world :=
  match pods w !! workspaceID with
  | None =>
      (Some (xerrors_Errorf "cannot find workspace %s: %w"
               [AStr workspaceID; AErr (not_found workspaceID)]), w)
  | Some pod => (None, set_pods w (<[workspaceID := annotate pod a]> (pods w)))
  end.

(** Modelled from the spec: [createWorkspaceSnapshotFromPVC], section 4.3:
    the cluster materialises a snapshot object under the given name, not
    ready at first; a name that exists already is left as it is. *)
Definition createWorkspaceSnapshotFromPVC (w : world)
    (pvcName pvcVolumeSnapshotName pvcVolumeSnapshotClassName workspaceID : string)
    (labels : gmap string string) : option error * world :=
  match snapshots w !! pvcVolumeSnapshotName with
  | Some _ => (None, w)
  | None => (None, set_snapshots w (<[pvcVolumeSnapshotName := false]> (snapshots w)))
  end.

(** Modelled from the spec: [checkWorkspaceVolumeSnapshotIsReady], section
    4.3: Ready, NotReady, or a NotFound status for an unknown snapshot. *)
Definition checkWorkspaceVolumeSnapshotIsReady (w : world) (snapshotID : string)
  : result bool :=
  match snapshots w !! snapshotID with
  | Some ready => inl ready
  | None => inr (status_Errorf NotFound "volume snapshot %s not found" [AStr snapshotID])
  end.

(** Modelled from the spec: [waitForWorkspaceVolumeSnapshotReady], section
    4.3: waiting ends with the snapshot ready when the cluster's snapshotter
    is running, and at the deadline, not ready, when it is not. *)
Definition waitForWorkspaceVolumeSnapshotReady (w : world) (name : string)
  : (bool * option error) * world :=
  match snapshots w !! name with
  | None => ((false, Some (not_found name)), w)
  | Some _ =>
      if snapshotter_running w then
        ((true, None), set_snapshots w (<[name := true]> (snapshots w)))
      else ((false, None), w)
  end.

(** Modelled from the spec: [connectToWorkspaceDaemon] and the two RPCs of
    the connection, section 4.2. *)
Definition connectToWorkspaceDaemon (w : world) (wso : workspaceObjects)
  : result string * world :=
  match daemon w with
  | Some _ => (inl (Name (wso_Pod wso)), w)
  | None => (inr (PlainError "dial: connection refused"), w)
  end.

Definition daemon_answer (w : world) : result string :=
  match daemon w with
  | Some r => r
  | None => inr (status_Errorf Unavailable "transport is closing" [])
  end.

Definition sync_TakeSnapshot (w : world) (conn : string) (req : DaemonTakeSnapshotRequest)
  : result DaemonTakeSnapshotResponse * world :=
  match daemon_answer w with
  | inl url => (inl {| dtr_Url := url |}, w)
  | inr e => (inr e, w)
  end.

Definition sync_BackupWorkspace (w : world) (conn : string) (req : DaemonBackupWorkspaceRequest)
  : result DaemonBackupWorkspaceResponse * world :=
  match daemon_answer w with
  | inl url => (inl {| dbr_Url := url |}, w)
  | inr e => (inr e, w)
  end.

Definition manager (cfg : Configuration) : Manager world string :=
  @Build_Manager world string cfg
    findWorkspacePod getWorkspaceObjects getWorkspaceStatus WorkspaceID clock
    createWorkspaceSnapshotFromPVC waitForWorkspaceVolumeSnapshotReady
    checkWorkspaceVolumeSnapshotIsReady connectToWorkspaceDaemon
    sync_TakeSnapshot sync_BackupWorkspace markWorkspace.

(** *** time.ParseDuration

    Go's parser: an optional sign, then one or more groups of a decimal
    number (digits, optionally a dot and more digits) and a unit, with its
    unit table and its overflow checks, on exact integers.  One difference:
    the contribution of a fractional part is truncated exactly, where Go
    rounds it through float64. *)

Definition is_digit (c : ascii) : bool :=
  let n := nat_of_ascii c in (48 <=? n)%nat && (n <=? 57)%nat.

Definition digit_val (c : ascii) : Z := Z.of_nat (nat_of_ascii c) - 48.

Definition is_dot (c : ascii) : bool := (nat_of_ascii c =? 46)%nat.

(** leadingInt: the digits in front of [s]; [None] on overflow. *)
Fixpoint leadingInt (x : Z) (s : string) : option (Z * string) :=
  match s with
  | String c s' =>
      if is_digit c then
        if 2 ^ 63 / 10 <? x then None
        else
          let x' := x * 10 + digit_val c in
          if 2 ^ 63 <? x' then None else leadingInt x' s'
      else Some (x, s)
  | EmptyString => Some (x, s)
  end.

(** leadingFraction: digits beyond the representable ones are skipped. *)
Fixpoint leadingFraction (x scale : Z) (overflow : bool) (s : string) : Z * Z * string :=
  match s with
  | String c s' =>
      if is_digit c then
        if overflow then leadingFraction x scale true s'
        else if (2 ^ 63 - 1) / 10 <? x then leadingFraction x scale true s'
        else
          let y := x * 10 + digit_val c in
          if 2 ^ 63 <? y then leadingFraction x scale true s'
          else leadingFraction y (scale * 10) false s'
      else (x, scale, s)
  | EmptyString => (x, scale, s)
  end.

(** The unit: everything up to the next digit or dot. *)
Fixpoint span_unit (s : string) : string * string :=
  match s with
  | String c s' =>
      if is_dot c || is_digit c then (EmptyString, s)
      else let '(u, r) := span_unit s' in (String c u, r)
  | EmptyString => (EmptyString, EmptyString)
  end.

Definition micro_sign : string :=
  String (ascii_of_nat 194) (String (ascii_of_nat 181) EmptyString).
Definition greek_mu : string :=
  String (ascii_of_nat 206) (String (ascii_of_nat 188) EmptyString).

Definition unitMap : gmap string Z :=
  list_to_map
    [("ns", 1); ("us", 1000); (micro_sign +:+ "s", 1000); (greek_mu +:+ "s", 1000);
     ("ms", 1000000); ("s", 1000000000); ("m", 60000000000); ("h", 3600000000000)].

Definition invalid (orig : string) : string :=
  "time: invalid duration " +:+ dquote +:+ orig +:+ dquote.

Fixpoint parse_groups (fuel : nat) (orig s : string) (d : Z) : Z + string :=
  match fuel, s with
  | _, EmptyString => inl d
  | O, _ => inr (invalid orig)
  | S fuel, String c _ =>
      if negb (is_dot c || is_digit c) then inr (invalid orig)
      else
        match leadingInt 0 s with
        | None => inr (invalid orig)
        | Some (v, s1) =>
            let pre := negb (Nat.eqb (String.length s) (String.length s1)) in
            let '(f, scale, s2, post) :=
              match s1 with
              | String c1 s1' =>
                  if is_dot c1 then
                    let '(f, scale, s2) := leadingFraction 0 1 false s1' in
                    (f, scale, s2, negb (Nat.eqb (String.length s1') (String.length s2)))
                  else (0, 1, s1, false)
              | EmptyString => (0, 1, s1, false)
              end in
            if negb pre && negb post then inr (invalid orig)
            else
              let '(u, s3) := span_unit s2 in
              match u with
              | EmptyString =>
                  inr ("time: missing unit in duration " +:+ dquote +:+ orig +:+ dquote)
              | _ =>
                  match unitMap !! u with
                  | None =>
                      inr ("time: unknown unit " +:+ dquote +:+ u +:+ dquote
                           +:+ " in duration " +:+ dquote +:+ orig +:+ dquote)
                  | Some unit =>
                      if 2 ^ 63 / unit <? v then inr (invalid orig)
                      else
                        let v := v * unit + (if 0 <? f then f * unit / scale else 0) in
                        if 2 ^ 63 <? v then inr (invalid orig)
                        else
                          let d := d + v in
                          if 2 ^ 63 <? d then inr (invalid orig)
                          else parse_groups fuel orig s3 d
                  end
              end
        end
  end.

Definition ParseDuration (orig : string) : Z + string :=
  let '(neg, s) :=
    match orig with
    | String c s' =>
        if (nat_of_ascii c =? 45)%nat then (true, s')
        else if (nat_of_ascii c =? 43)%nat then (false, s')
        else (false, orig)
    | EmptyString => (false, orig)
    end in
  if String.eqb s "0" then inl 0
  else if String.eqb s EmptyString then inr (invalid orig)
  else
    match parse_groups (String.length s) orig s 0 with
    | inr e => inr e
    | inl d =>
        if neg then inl (- d)
        else if 2 ^ 63 - 1 <? d then inr (invalid orig)
        else inl d
    end.

(** The label and annotation keys and the enum names of the API. *)
Definition externals : Externals :=
  {| pvcWorkspaceFeatureLabel := "gitpod.io/pvcFeature";
     workspaceClassLabel := "gitpod.io/workspaceClass";
     customTimeoutAnnotation := "gitpod/customTimeout";
     WorkspaceAdmissionAnnotation := "gitpod/admission";
     AdmissionLevel_name := {[ 0 := "ADMIT_OWNER_ONLY"; 1 := "ADMIT_EVERYONE" ]};
     time_ParseDuration := ParseDuration;
     grpc_unwraps := false |}.

End Sim.

(** ** What a caller observes *)

(** The handler failed with an error of class [c]. *)
Definition classified {A} (r : result A) (c : Code) : Prop :=
  ∃ e, r = inr e ∧ status_Code e = c.

(** The calls a run made: what it appended to the trace. *)
Definition calls_of {W A} (st : mstate W) (out : A * mstate W) : list Call :=
  drop (List.length (trace st)) (trace (snd out)).

(** A run that mutated nothing: same world afterwards, and only reads among
    its calls. *)
Definition untouched {W A} (st : mstate W) (out : A * mstate W) : Prop :=
  world (snd out) = world st ∧ forallb is_read (calls_of st out) = true.

(** The reading of "returns NotFound and performs no mutation" for one run. *)
Definition not_found_untouched {W A} (st : mstate W) (out : result A * mstate W) : Prop :=
  classified (fst out) NotFound ∧ untouched st out.

(** The reading of "returns InvalidArgument and writes no annotation". *)
Definition invalid_argument_untouched {W A} (st : mstate W) (out : result A * mstate W) : Prop :=
  classified (fst out) InvalidArgument ∧ untouched st out.

(** ** States and values the statements refer to *)

Section Outcomes.
Context {W Conn : Type} (X : Externals) (m : Manager W Conn).

(** The state after the pod lookup alone. *)
Definition looked_up (st : mstate W) (workspaceID : string) : mstate W :=
  {| world := world st; trace := trace st ++ [CallFindWorkspacePod workspaceID] |}.

(** The state after the two reads every status-gated handler starts with. *)
Definition resolved (st : mstate W) (workspaceID : string) (pod : Pod) : mstate W :=
  {| world := world st;
     trace := trace st ++ [CallFindWorkspacePod workspaceID; CallGetWorkspaceObjects pod] |}.

(** The workspace with this ID exists in state [st]: its pod is found, its
    objects are read and its status is derived, as every status-gated handler
    does at the moment it is called. *)
Definition exists_with (st : mstate W) (workspaceID : string)
    (pod : Pod) (wso : workspaceObjects) (sts : WorkspaceStatus) : Prop :=
  findWorkspacePod m (world st) workspaceID = inl pod
  ∧ getWorkspaceObjects m (world st) pod = inl wso
  ∧ getWorkspaceStatus m wso = inl sts.

(** The workspace ID has no backing pod in state [st]. *)
Definition no_backing_pod (st : mstate W) (workspaceID : string) : Prop :=
  ∃ e, findWorkspacePod m (world st) workspaceID = inr e
       ∧ isKubernetesObjNotFoundError e = true.

Definition stopping_or_stopped (ph : WorkspacePhase) : bool :=
  bool_decide (ph = WorkspacePhase_STOPPING) || bool_decide (ph = WorkspacePhase_STOPPED).

(** m.Config.WorkspaceClasses[wsClassName].PVC.SnapshotClass, or the empty
    string when the pod has no class label or the class is not configured *)
Definition snapshot_class_of (wso : workspaceObjects) : string :=
  match Labels (wso_Pod wso) !! workspaceClassLabel X with
  | Some wsClassName =>
      match WorkspaceClasses (Config m) !! wsClassName with
      | Some workspaceClass => SnapshotClass (PVC workspaceClass)
      | None => EmptyString
      end
  | None => EmptyString
  end.

(** The name a volume snapshot requested in state [st] gets. *)
Definition snapshot_name_at (st : mstate W) (wso : workspaceObjects) : string :=
  Sprintf_snapshot (fst (WorkspaceID m wso)) (time_Now_UnixNano m (world st)).

(** The request for a volume snapshot made in state [st]. *)
Definition create_call (st : mstate W) (wso : workspaceObjects) : Call :=
  CallCreateWorkspaceSnapshotFromPVC (Name (wso_Pod wso)) (snapshot_name_at st wso)
    (snapshot_class_of wso) (fst (WorkspaceID m wso)) (Labels (wso_Pod wso)).

(** Its execution against the cluster. *)
Definition create_in (st : mstate W) (wso : workspaceObjects) : option error * W :=
  createWorkspaceSnapshotFromPVC m (world st) (Name (wso_Pod wso))
    (snapshot_name_at st wso) (snapshot_class_of wso)
    (fst (WorkspaceID m wso)) (Labels (wso_Pod wso)).

(** The workspace is RUNNING and its pod carries the PVC feature label. *)
Definition pvc_running (wso : workspaceObjects) (sts : WorkspaceStatus) : Prop :=
  sts_Phase sts = WorkspacePhase_RUNNING
  ∧ is_Some (Labels (wso_Pod wso) !! pvcWorkspaceFeatureLabel X).

(** The workspace is RUNNING and its pod does not carry the label. *)
Definition daemon_running (wso : workspaceObjects) (sts : WorkspaceStatus) : Prop :=
  sts_Phase sts = WorkspacePhase_RUNNING
  ∧ Labels (wso_Pod wso) !! pvcWorkspaceFeatureLabel X = None.

End Outcomes.

(** ** A cluster with four workspaces *)

Module Scenario.

Definition pod_of (name : string) (labels : gmap string string)
    (deleted : option Z) (ph : PodPhase) : Pod :=
  {| Name := "ws-" +:+ name; Labels := labels;
     Annotations := {[ "gitpod/id" := name ]};
     DeletionTimestamp := deleted; Phase := ph |}.

(** w1: running, content backed up through the daemon.
    w3: running, PVC-backed, of class "default".
    w4: being deleted.  w5: still pending. *)
Definition w1 : Pod := pod_of "w1" ∅ None PodRunning.
Definition w3 : Pod :=
  pod_of "w3" {[ "gitpod.io/pvcFeature" := "true"; "gitpod.io/workspaceClass" := "default" ]}
    None PodRunning.
Definition w4 : Pod := pod_of "w4" ∅ (Some 1667347100) PodRunning.
Definition w5 : Pod := pod_of "w5" ∅ None PodPending.

Definition config : Configuration :=
  {| WorkspaceClasses := {[ "default" := {| PVC := {| SnapshotClass := "csi-gce-pd" |} |} ]} |}.

Definition m : Manager Sim.world string := Sim.manager config.
Definition X : Externals := Sim.externals.

Definition cluster : Sim.world :=
  {| Sim.pods := {[ "w1" := w1; "w3" := w3; "w4" := w4; "w5" := w5 ]};
     Sim.snapshots := {[ "snapshot-old" := false ]};
     Sim.clock := 1667347200000000000;
     Sim.daemon := Some (inl "backup://w1/1");
     Sim.snapshotter_running := true |}.

Definition start (w : Sim.world) : mstate Sim.world := {| world := w; trace := [] |}.

Definition objects (pod : Pod) : workspaceObjects := workspaceObjects_of_pod pod.
Definition status (pod : Pod) : WorkspaceStatus := Sim.status_of (objects pod).

(** The same cluster with the snapshotter down, with the daemon unreachable,
    and with a daemon that refuses the request. *)
Definition cluster_slow : Sim.world :=
  {| Sim.pods := Sim.pods cluster; Sim.snapshots := Sim.snapshots cluster;
     Sim.clock := Sim.clock cluster; Sim.daemon := Sim.daemon cluster;
     Sim.snapshotter_running := false |}.

Definition cluster_no_daemon : Sim.world :=
  {| Sim.pods := Sim.pods cluster; Sim.snapshots := Sim.snapshots cluster;
     Sim.clock := Sim.clock cluster; Sim.daemon := None;
     Sim.snapshotter_running := true |}.

Definition daemon_refusal : error :=
  status_Errorf ResourceExhausted "no space left on device" [].

Definition cluster_daemon_fails : Sim.world :=
  {| Sim.pods := Sim.pods cluster; Sim.snapshots := Sim.snapshots cluster;
     Sim.clock := Sim.clock cluster; Sim.daemon := Some (inr daemon_refusal);
     Sim.snapshotter_running := true |}.

End Scenario.

(** ** Further observations on a run *)

(** An error the handler built itself with status.Errorf, with one of the
    given codes. *)
Definition own_status (codes : list Code) (e : error) : Prop :=
  ∃ c format args, e = StatusError c format args ∧ c ∈ codes.

(** An error built with xerrors.Errorf. *)
Definition is_xerror (e : error) : bool :=
  match e with XError _ _ _ => true | _ => false end.

(** The two calls of the volume-snapshot strategy. *)
Definition is_volume_snapshot (c : Call) : bool :=
  match c with
  | CallCreateWorkspaceSnapshotFromPVC _ _ _ _ _
  | CallWaitForWorkspaceVolumeSnapshotReady _ => true
  | _ => false
  end.

Definition is_wait (c : Call) : bool :=
  match c with CallWaitForWorkspaceVolumeSnapshotReady _ => true | _ => false end.

Definition is_clock (c : Call) : bool :=
  match c with CallTimeNow => true | _ => false end.

Definition is_upper (c : ascii) : bool :=
  let n := nat_of_ascii c in (65 <=? n)%nat && (n <=? 90)%nat.

(** No byte of the string is an ASCII capital. *)
Fixpoint no_upper (s : string) : bool :=
  match s with
  | EmptyString => true
  | String c s' => negb (is_upper c) && no_upper s'
  end.

Definition is_dash (c : ascii) : bool := (nat_of_ascii c =? 45)%nat.

(** The string contains no minus sign. *)
Fixpoint dash_free (s : string) : bool :=
  match s with
  | EmptyString => true
  | String c s' => negb (is_dash c) && dash_free s'
  end.

(** ** The same cluster behind a failing API *)

Module Outage.

Definition api_error : error := K8sStatusError 500 "etcdserver: request timed out".

(** The cluster API answers every pod lookup with a server error. *)
Definition api_down : Manager Sim.world string :=
  @Build_Manager Sim.world string Scenario.config
    (λ _ _, inr api_error) Sim.getWorkspaceObjects Sim.getWorkspaceStatus
    Sim.WorkspaceID Sim.clock Sim.createWorkspaceSnapshotFromPVC
    Sim.waitForWorkspaceVolumeSnapshotReady Sim.checkWorkspaceVolumeSnapshotIsReady
    Sim.connectToWorkspaceDaemon Sim.sync_TakeSnapshot Sim.sync_BackupWorkspace
    Sim.markWorkspace.

Definition objects_error : error := PlainError "cannot list events".

(** The pod is found, but its objects cannot be read. *)
Definition objects_unreadable : Manager Sim.world string :=
  @Build_Manager Sim.world string Scenario.config
    Sim.findWorkspacePod (λ _ _, inr objects_error) Sim.getWorkspaceStatus
    Sim.WorkspaceID Sim.clock Sim.createWorkspaceSnapshotFromPVC
    Sim.waitForWorkspaceVolumeSnapshotReady Sim.checkWorkspaceVolumeSnapshotIsReady
    Sim.connectToWorkspaceDaemon Sim.sync_TakeSnapshot Sim.sync_BackupWorkspace
    Sim.markWorkspace.

Definition status_error : error := PlainError "cannot determine phase".

(** The objects are read, but no status can be derived from them. *)
Definition status_underivable : Manager Sim.world string :=
  @Build_Manager Sim.world string Scenario.config
    Sim.findWorkspacePod Sim.getWorkspaceObjects (λ _, inr status_error)
    Sim.WorkspaceID Sim.clock Sim.createWorkspaceSnapshotFromPVC
    Sim.waitForWorkspaceVolumeSnapshotReady Sim.checkWorkspaceVolumeSnapshotIsReady
    Sim.connectToWorkspaceDaemon Sim.sync_TakeSnapshot Sim.sync_BackupWorkspace
    Sim.markWorkspace.

Definition quota_error : error := PlainError "exceeded quota: volumesnapshots".

(** The cluster refuses to create volume snapshots. *)
Definition snapshots_refused : Manager Sim.world string :=
  @Build_Manager Sim.world string Scenario.config
    Sim.findWorkspacePod Sim.getWorkspaceObjects Sim.getWorkspaceStatus
    Sim.WorkspaceID Sim.clock (λ w _ _ _ _ _, (Some quota_error, w))
    Sim.waitForWorkspaceVolumeSnapshotReady Sim.checkWorkspaceVolumeSnapshotIsReady
    Sim.connectToWorkspaceDaemon Sim.sync_TakeSnapshot Sim.sync_BackupWorkspace
    Sim.markWorkspace.

(** The readiness check is cut short by the caller's context. *)
Definition check_cancelled : Manager Sim.world string :=
  @Build_Manager Sim.world string Scenario.config
    Sim.findWorkspacePod Sim.getWorkspaceObjects Sim.getWorkspaceStatus
    Sim.WorkspaceID Sim.clock Sim.createWorkspaceSnapshotFromPVC
    Sim.waitForWorkspaceVolumeSnapshotReady
    (λ _ _, inr (status_Errorf Canceled "context canceled" []))
    Sim.connectToWorkspaceDaemon Sim.sync_TakeSnapshot Sim.sync_BackupWorkspace
    Sim.markWorkspace.

Definition conflict_error : error :=
  K8sStatusError 409 "the object has been modified; please apply your changes to the latest version".

(** Every write of an annotation is refused by the cluster. *)
Definition marks_refused : Manager Sim.world string :=
  @Build_Manager Sim.world string Scenario.config
    Sim.findWorkspacePod Sim.getWorkspaceObjects Sim.getWorkspaceStatus
    Sim.WorkspaceID Sim.clock Sim.createWorkspaceSnapshotFromPVC
    Sim.waitForWorkspaceVolumeSnapshotReady Sim.checkWorkspaceVolumeSnapshotIsReady
    Sim.connectToWorkspaceDaemon Sim.sync_TakeSnapshot Sim.sync_BackupWorkspace
    (λ w _ _, (Some conflict_error, w)).

(** The readiness check reports the cluster's NotFound status inside an
    error of its own: mentioned with %v, and wrapped with %w. *)
Definition snapshot_gone : error :=
  status_Errorf NotFound "volumesnapshot %s not found" [AStr "snapshot-old"].

Definition check_mentions_not_found : Manager Sim.world string :=
  @Build_Manager Sim.world string Scenario.config
    Sim.findWorkspacePod Sim.getWorkspaceObjects Sim.getWorkspaceStatus
    Sim.WorkspaceID Sim.clock Sim.createWorkspaceSnapshotFromPVC
    Sim.waitForWorkspaceVolumeSnapshotReady
    (λ _ _, inr (xerrors_Errorf "lookup said %v, giving up" [AErr snapshot_gone]))
    Sim.connectToWorkspaceDaemon Sim.sync_TakeSnapshot Sim.sync_BackupWorkspace
    Sim.markWorkspace.

Definition check_wraps_not_found : Manager Sim.world string :=
  @Build_Manager Sim.world string Scenario.config
    Sim.findWorkspacePod Sim.getWorkspaceObjects Sim.getWorkspaceStatus
    Sim.WorkspaceID Sim.clock Sim.createWorkspaceSnapshotFromPVC
    Sim.waitForWorkspaceVolumeSnapshotReady
    (λ _ _, inr (xerrors_Errorf "cannot get volume snapshot: %w" [AErr snapshot_gone]))
    Sim.connectToWorkspaceDaemon Sim.sync_TakeSnapshot Sim.sync_BackupWorkspace
    Sim.markWorkspace.

(** The externals of a build against grpc v1.55 or later. *)
Definition externals_unwrapping : Externals :=
  {| pvcWorkspaceFeatureLabel := pvcWorkspaceFeatureLabel Sim.externals;
     workspaceClassLabel := workspaceClassLabel Sim.externals;
     customTimeoutAnnotation := customTimeoutAnnotation Sim.externals;
     WorkspaceAdmissionAnnotation := WorkspaceAdmissionAnnotation Sim.externals;
     AdmissionLevel_name := AdmissionLevel_name Sim.externals;
     time_ParseDuration := time_ParseDuration Sim.externals;
     grpc_unwraps := true |}.

End Outage.

(** ** The toolbox's client of the public API

    [GitpodPublicApiManager] and [AuthorizationInterceptor] of the toolbox
    plugin (Kotlin).  The manager keeps one client per service, built when an
    account logs in and dropped at logout; every call first checks that its
    client is there.  The remote calls themselves are outside this model:
    [precheck] is what a method does before it sends anything. *)
Module Toolbox.

(** A request as an interceptor sees it: the headers, and everything else
    (URL, content type, message), which [clone(headers = ...)] copies. *)
Record HTTPRequest (R : Type) := {
  headers : gmap string (list string);
  rest : R;
}.
Arguments headers {R} _.
Arguments rest {R} _.

(** MutableMap.putAll: the entries of [src] go into [dst], replacing the ones
    that have the same key. *)
Definition putAll (dst src : gmap string (list string)) : gmap string (list string) :=
  src ∪ dst.

Record AuthorizationInterceptor := { token : string }.

(** AuthorizationInterceptor.streamFunction: the request function of the
    StreamFunction it returns. *)
Definition streamFunction {R} (this : AuthorizationInterceptor) (it : HTTPRequest R)
  : HTTPRequest R :=
  let headers0 : gmap string (list string) := ∅ in
  let headers1 := putAll headers0 (headers it) in
  let headers2 := <["Authorization" := ["Bearer " +:+ token this]]> headers1 in
  {| headers := headers2; rest := rest it |}.

(** AuthorizationInterceptor.unaryFunction: the request function of the
    UnaryFunction it returns. *)
Definition unaryFunction {R} (this : AuthorizationInterceptor) (it : HTTPRequest R)
  : HTTPRequest R :=
  let headers0 : gmap string (list string) := ∅ in
  let headers1 := putAll headers0 (headers it) in
  let headers2 := <["Authorization" := ["Bearer " +:+ token this]]> headers1 in
  {| headers := headers2; rest := rest it |}.

Inductive NetworkProtocol := CONNECT | GRPC | GRPC_WEB.

(** ProtocolClient, with the configuration createClient gives it. *)
Record ProtocolClient := {
  host : string;
  readTimeoutMinutes : Z;
  networkProtocol : NetworkProtocol;
  interceptors : list AuthorizationInterceptor;
}.

(** GitpodPublicApiManager.createClient *)
Definition createClient (gitpodHost token : string) : ProtocolClient :=
  let authInterceptor := {| token := token |} in
  {| host := gitpodHost +:+ "/public-api";
     readTimeoutMinutes := 6;
     networkProtocol := CONNECT;
     interceptors := [authInterceptor] |}.

(** What the manager reads of a GitpodAccount (declared in the auth
    package): getHost(), getCredentials() and organizationId. *)
Record GitpodAccount := {
  getHost : string;
  getCredentials : string;
  organizationId : option string;
}.

(** The fields of GitpodPublicApiManager.  A service client wraps the
    protocol client it was built from. *)
Record GitpodPublicApiManager := {
  workspaceApi : option ProtocolClient;
  organizationApi : option ProtocolClient;
  userApi : option ProtocolClient;
  account : option GitpodAccount;
}.

(** The field initialisers. *)
Definition fresh : GitpodPublicApiManager :=
  {| workspaceApi := None; organizationApi := None; userApi := None; account := None |}.

(** setup(), with what authManger.getCurrentAccount() answers. *)
Definition setup (currentAccount : option GitpodAccount) (this : GitpodPublicApiManager)
  : GitpodPublicApiManager :=
  match currentAccount with
  | None => this
  | Some account =>
      let client := createClient (getHost account) (getCredentials account) in
      {| workspaceApi := Some client;
         organizationApi := Some client;
         userApi := Some client;
         account := Some account |}
  end.

(** The logout listener. *)
Definition onLogout (this : GitpodPublicApiManager) : GitpodPublicApiManager :=
  {| workspaceApi := None; organizationApi := None; userApi := None; account := None |}.

(** The init block: setup() once, then the two listeners stay registered. *)
Definition init (currentAccount : option GitpodAccount) : GitpodPublicApiManager :=
  setup currentAccount fresh.

(** What the auth manager announces afterwards: a login (the listener runs
    setup(), which asks for the current account) or a logout. *)
Inductive AuthEvent :=
| LoggedIn (currentAccount : option GitpodAccount)
| LoggedOut.

Definition on (ev : AuthEvent) (this : GitpodPublicApiManager) : GitpodPublicApiManager :=
  match ev with
  | LoggedIn currentAccount => setup currentAccount this
  | LoggedOut => onLogout this
  end.

(** The manager after construction and a sequence of announcements. *)
Definition after (currentAccount : option GitpodAccount) (evs : list AuthEvent)
  : GitpodPublicApiManager :=
  foldl (λ this ev, on ev this) (init currentAccount) evs.

Inductive Exception := IllegalStateException (msg : string).

(** The getter of orgId. *)
Definition orgId (this : GitpodPublicApiManager) : Exception + string :=
  match account this ≫= organizationId with
  | Some id => inr id
  | None => inl (IllegalStateException "Organization not selected")
  end.

Inductive ApiMethod :=
| listOrganizations | createAndStartWorkspace | watchWorkspace | listWorkspaces
| getWorkspace | getWorkspaceOwnerToken | getAuthenticatedUser.

(** [api ?: throw IllegalStateException("No client")] *)
Definition orThrow (api : option ProtocolClient) : Exception + ProtocolClient :=
  match api with
  | Some client => inr client
  | None => inl (IllegalStateException "No client")
  end.

(** What each method does before it sends its request: the client it picks,
    and the organization ID when the request carries one. *)
Definition precheck (method : ApiMethod) (this : GitpodPublicApiManager)
  : Exception + (ProtocolClient * option string) :=
  match method with
  | listOrganizations =>
      match orThrow (organizationApi this) with
      | inl ex => inl ex
      | inr client => inr (client, None)
      end
  | createAndStartWorkspace | listWorkspaces =>
      match orThrow (workspaceApi this) with
      | inl ex => inl ex
      | inr client =>
          match orgId this with
          | inl ex => inl ex
          | inr id => inr (client, Some id)
          end
      end
  | watchWorkspace | getWorkspace | getWorkspaceOwnerToken =>
      match orThrow (workspaceApi this) with
      | inl ex => inl ex
      | inr client => inr (client, None)
      end
  | getAuthenticatedUser =>
      match orThrow (userApi this) with
      | inl ex => inl ex
      | inr client => inr (client, None)
      end
  end.

(** The manager holds no client at all, or the clients of one account. *)
Definition coherent (this : GitpodPublicApiManager) : Prop :=
  this = fresh
  ∨ ∃ acc,
      this = {| workspaceApi := Some (createClient (getHost acc) (getCredentials acc));
                organizationApi := Some (createClient (getHost acc) (getCredentials acc));
                userApi := Some (createClient (getHost acc) (getCredentials acc));
                account := Some acc |}.

Definition alice : GitpodAccount :=
  {| getHost := "https://gitpod.example.com"; getCredentials := "s3cret";
     organizationId := Some "org-1" |}.

Definition bob : GitpodAccount :=
  {| getHost := "https://gitpod.example.com"; getCredentials := "hunter2";
     organizationId := None |}.

End Toolbox.

(** * Properties *)

(** ** The duration parser on examples *)

Example ParseDuration_ok :
  Sim.ParseDuration "30m" = inl 1800000000000
  ∧ Sim.ParseDuration "1h15m30.5s" = inl 4530500000000
  ∧ Sim.ParseDuration "-0.5h" = inl (-1800000000000).
Proof. by vm_compute. Qed.

Example ParseDuration_bad :
  Sim.ParseDuration "not-a-duration" = inr (Sim.invalid "not-a-duration")
  ∧ Sim.ParseDuration EmptyString = inr (Sim.invalid EmptyString)
  ∧ Sim.ParseDuration "15"
    = inr ("time: missing unit in duration " +:+ dquote +:+ "15" +:+ dquote)
  ∧ Sim.ParseDuration "1d"
    = inr ("time: unknown unit " +:+ dquote +:+ "d" +:+ dquote
           +:+ " in duration " +:+ dquote +:+ "1d" +:+ dquote).
Proof. by vm_compute. Qed.

Example ToLower_level_names :
  strings_ToLower "ADMIT_OWNER_ONLY" = "admit_owner_only"
  ∧ strings_ToLower "ADMIT_EVERYONE" = "admit_everyone".
Proof. by vm_compute. Qed.

(** ** status.Code on wrapped errors *)

Lemma status_Code_at_status (looks_through : bool) (c : Code) (format : string)
    (args : list fmtArg) :
  status_Code_at looks_through (status_Errorf c format args) = c.
Proof. done. Qed.

(** A status mentioned with %v is not seen by any version of the module; a
    status wrapped with %w is seen from v1.55 on. *)
Example status_Code_of_wrappers :
  status_Code_at false (xerrors_Errorf "lookup said %v, giving up" [AErr Outage.snapshot_gone])
  = Unknown
  ∧ status_Code_at true (xerrors_Errorf "lookup said %v, giving up" [AErr Outage.snapshot_gone])
    = Unknown
  ∧ status_Code_at false
      (xerrors_Errorf "cannot get volume snapshot: %w" [AErr Outage.snapshot_gone])
    = Unknown
  ∧ status_Code_at true
      (xerrors_Errorf "cannot get volume snapshot: %w" [AErr Outage.snapshot_gone])
    = NotFound.
Proof. by vm_compute. Qed.

(** GetVolumeSnapshot on such check errors: Internal, except for the wrapped
    status in a build that follows Unwrap. *)
Example GetVolumeSnapshot_on_wrappers :
  fst (GetVolumeSnapshot Scenario.X Outage.check_mentions_not_found
         {| gvq_Id := "snapshot-old" |} (Scenario.start Scenario.cluster))
  = inr (status_Errorf Internal "cannot check if volume snapshot is ready: %q"
           [AErr (xerrors_Errorf "lookup said %v, giving up" [AErr Outage.snapshot_gone])])
  ∧ fst (GetVolumeSnapshot Outage.externals_unwrapping Outage.check_mentions_not_found
           {| gvq_Id := "snapshot-old" |} (Scenario.start Scenario.cluster))
    = inr (status_Errorf Internal "cannot check if volume snapshot is ready: %q"
             [AErr (xerrors_Errorf "lookup said %v, giving up" [AErr Outage.snapshot_gone])])
  ∧ fst (GetVolumeSnapshot Scenario.X Outage.check_wraps_not_found
           {| gvq_Id := "snapshot-old" |} (Scenario.start Scenario.cluster))
    = inr (status_Errorf Internal "cannot check if volume snapshot is ready: %q"
             [AErr (xerrors_Errorf "cannot get volume snapshot: %w"
                      [AErr Outage.snapshot_gone])])
  ∧ fst (GetVolumeSnapshot Outage.externals_unwrapping Outage.check_wraps_not_found
           {| gvq_Id := "snapshot-old" |} (Scenario.start Scenario.cluster))
    = inr (status_Errorf NotFound "volume snapshot %s does not exist"
             [AStr "snapshot-old"]).
Proof. by vm_compute. Qed.

(** ** Observations *)

Lemma calls_of_app {W A} (st : mstate W) (a : A) (w : W) (cs : list Call) :
  calls_of st (a, {| world := w; trace := trace st ++ cs |}) = cs.
Proof. unfold calls_of; simpl. by rewrite drop_app_length. Qed.

Lemma calls_of_same {W A} (st : mstate W) (a : A) :
  calls_of st (a, st) = [].
Proof. unfold calls_of; simpl. by rewrite drop_all. Qed.

Lemma untouched_reads {W A} (st : mstate W) (a : A) (cs : list Call) :
  forallb is_read cs = true →
  untouched st (a, {| world := world st; trace := trace st ++ cs |}).
Proof. intros Hcs. split; [done|]. by rewrite calls_of_app. Qed.

Lemma untouched_same {W A} (st : mstate W) (a : A) : untouched st (a, st).
Proof. split; [done|]. by rewrite calls_of_same. Qed.

Lemma classified_status {A} (c : Code) (format : string) (args : list fmtArg) :
  classified (A := A) (inr (status_Errorf c format args)) c.
Proof. by eexists. Qed.

Lemma classified_inl {A} (a : A) (c : Code) : ¬ classified (inl a) c.
Proof. by intros (e & He & _). Qed.

Lemma classified_code {A} (e : error) (c : Code) :
  classified (A := A) (inr e) c ↔ status_Code e = c.
Proof.
  split.
  - intros (e' & He & Hc). by simplify_eq.
  - intros Hc. by exists e.
Qed.

(** ** The handlers, branch by branch *)

Ltac run_handler h :=
  unfold h, mbind, M_bind, mret, M_ret, reading, acting; simpl.

Ltac resolve_workspace Hex :=
  destruct Hex as (Hfind & Hobj & Hsts);
  rewrite Hfind; simpl; rewrite Hobj; simpl; rewrite Hsts.

Section Branches.
Context {W Conn : Type} (X : Externals) (m : Manager W Conn).

Implicit Types (st : mstate W) (pod : Pod) (wso : workspaceObjects)
  (sts : WorkspaceStatus) (e : error).

Lemma TakeSnapshot_missing st req e :
  findWorkspacePod m (world st) (tsq_Id req) = inr e →
  isKubernetesObjNotFoundError e = true →
  TakeSnapshot X m req st
  = (inr (status_Errorf NotFound "workspace %s does not exist" [AStr (tsq_Id req)]),
     looked_up st (tsq_Id req)).
Proof.
  intros Hfind Hnf. run_handler @TakeSnapshot. by rewrite Hfind, Hnf.
Qed.

Lemma ControlAdmission_missing st req e :
  findWorkspacePod m (world st) (caq_Id req) = inr e →
  isKubernetesObjNotFoundError e = true →
  ControlAdmission X m req st
  = (inr (status_Errorf NotFound "workspace %s does not exist" [AStr (caq_Id req)]),
     looked_up st (caq_Id req)).
Proof.
  intros Hfind Hnf. run_handler @ControlAdmission. by rewrite Hfind, Hnf.
Qed.

Lemma BackupWorkspace_missing st req e :
  findWorkspacePod m (world st) (bwq_Id req) = inr e →
  isKubernetesObjNotFoundError e = true →
  BackupWorkspace m req st
  = (inr (status_Errorf NotFound "workspace pod for %s does not exist" [AStr (bwq_Id req)]),
     looked_up st (bwq_Id req)).
Proof.
  intros Hfind Hnf. run_handler @BackupWorkspace. by rewrite Hfind, Hnf.
Qed.

Lemma not_found_looked_up {A} st (id format : string) (args : list fmtArg) :
  not_found_untouched (A := A) st (inr (status_Errorf NotFound format args), looked_up st id).
Proof. split; [apply classified_status | by apply untouched_reads]. Qed.

(** SetTimeout with a duration that parses goes straight to the mark. *)
Lemma SetTimeout_parsed st req (d : Z) (err : option error) (w' : W) :
  time_ParseDuration X (stq_Duration req) = inl d →
  markWorkspace m (world st) (stq_Id req)
    (addMark (customTimeoutAnnotation X) (stq_Duration req)) = (err, w') →
  SetTimeout X m req st
  = (match err with
     | Some err => inr (xerrors_Errorf "cannot set workspace timeout: %w" [AErr err])
     | None => inl Build_SetTimeoutResponse
     end,
     {| world := w';
        trace := trace st ++ [CallMarkWorkspace (stq_Id req)
                   (addMark (customTimeoutAnnotation X) (stq_Duration req))] |}).
Proof.
  intros Hparse Hmark. run_handler @SetTimeout.
  rewrite Hparse; simpl. rewrite Hmark. by destruct err.
Qed.

Lemma SetTimeout_unparsed st req (msg : string) :
  time_ParseDuration X (stq_Duration req) = inr msg →
  SetTimeout X m req st
  = (inr (xerrors_Errorf ("invalid duration " +:+ dquote +:+ "%s" +:+ dquote +:+ ": %w")
            [AStr (stq_Duration req); AErr (PlainError msg)]),
     st).
Proof. intros Hparse. unfold SetTimeout. by rewrite Hparse. Qed.

Lemma ControlAdmission_stopping st req pod wso sts :
  exists_with m st (caq_Id req) pod wso sts →
  stopping_or_stopped (sts_Phase sts) = true →
  ControlAdmission X m req st
  = (inr (status_Errorf FailedPrecondition
            "cannot control admission of stopping workspaces" []),
     resolved st (caq_Id req) pod).
Proof.
  intros Hex Hph. run_handler @ControlAdmission. resolve_workspace Hex.
  unfold stopping_or_stopped in Hph. rewrite Hph. unfold resolved, logged; simpl.
  by rewrite <- app_assoc.
Qed.

Lemma ControlAdmission_invalid_level st req pod wso sts :
  exists_with m st (caq_Id req) pod wso sts →
  stopping_or_stopped (sts_Phase sts) = false →
  AdmissionLevel_name X !! caq_Level req = None →
  ControlAdmission X m req st
  = (inr (status_Errorf InvalidArgument "invalid admission level" []),
     resolved st (caq_Id req) pod).
Proof.
  intros Hex Hph Hlvl. run_handler @ControlAdmission. resolve_workspace Hex.
  unfold stopping_or_stopped in Hph. rewrite Hph, Hlvl. unfold resolved, logged; simpl.
  by rewrite <- app_assoc.
Qed.

Lemma ControlAdmission_marked st req pod wso sts (val : string)
    (err : option error) (w' : W) :
  exists_with m st (caq_Id req) pod wso sts →
  stopping_or_stopped (sts_Phase sts) = false →
  AdmissionLevel_name X !! caq_Level req = Some val →
  markWorkspace m (world st) (caq_Id req)
    (addMark (WorkspaceAdmissionAnnotation X) (strings_ToLower val)) = (err, w') →
  ControlAdmission X m req st
  = (match err with
     | Some err =>
         inr (status_Errorf Internal "cannot change workspace admission level: %q" [AErr err])
     | None => inl Build_ControlAdmissionResponse
     end,
     {| world := w';
        trace := trace st
                 ++ [CallFindWorkspacePod (caq_Id req); CallGetWorkspaceObjects pod;
                     CallMarkWorkspace (caq_Id req)
                       (addMark (WorkspaceAdmissionAnnotation X) (strings_ToLower val))] |}).
Proof.
  intros Hex Hph Hlvl Hmark. run_handler @ControlAdmission. resolve_workspace Hex.
  unfold stopping_or_stopped in Hph. rewrite Hph, Hlvl; simpl. rewrite Hmark.
  unfold logged; simpl. rewrite <- !app_assoc. by destruct err.
Qed.

Lemma TakeSnapshot_not_running st req pod wso sts :
  exists_with m st (tsq_Id req) pod wso sts →
  sts_Phase sts ≠ WorkspacePhase_RUNNING →
  TakeSnapshot X m req st
  = (inr (status_Errorf FailedPrecondition
            "can only take snapshots of running workspaces" []),
     resolved st (tsq_Id req) pod).
Proof.
  intros Hex Hph. run_handler @TakeSnapshot. resolve_workspace Hex.
  rewrite bool_decide_eq_true_2 by done. unfold resolved, logged; simpl.
  by rewrite <- app_assoc.
Qed.

Ltac enter_pvc Hpvc :=
  destruct Hpvc as (Hph & Hlabel); rewrite Hph;
  rewrite bool_decide_eq_false_2 by (intros H; by apply H);
  rewrite bool_decide_eq_true_2 by done; simpl.

Lemma TakeSnapshot_pvc_create_failed st req pod wso sts (err : error) (w1 : W) :
  exists_with m st (tsq_Id req) pod wso sts →
  pvc_running X wso sts →
  create_in X m st wso = (Some err, w1) →
  TakeSnapshot X m req st
  = (inr (status_Errorf Internal "cannot create volume snapshot from pvc: %q" [AErr err]),
     {| world := w1;
        trace := trace st
                 ++ [CallFindWorkspacePod (tsq_Id req); CallGetWorkspaceObjects pod;
                     CallTimeNow; create_call X m st wso] |}).
Proof.
  intros Hex Hpvc Hcreate. run_handler @TakeSnapshot. resolve_workspace Hex.
  enter_pvc Hpvc.
  unfold create_in, snapshot_name_at, snapshot_class_of in Hcreate. rewrite Hcreate.
  unfold logged; simpl. by rewrite <- !app_assoc.
Qed.

Lemma TakeSnapshot_pvc_immediately st req pod wso sts (w1 : W) :
  exists_with m st (tsq_Id req) pod wso sts →
  pvc_running X wso sts →
  create_in X m st wso = (None, w1) →
  tsq_ReturnImmediately req = true →
  TakeSnapshot X m req st
  = (inl {| tsr_Url := snapshot_name_at m st wso |},
     {| world := w1;
        trace := trace st
                 ++ [CallFindWorkspacePod (tsq_Id req); CallGetWorkspaceObjects pod;
                     CallTimeNow; create_call X m st wso] |}).
Proof.
  intros Hex Hpvc Hcreate Hri. run_handler @TakeSnapshot. resolve_workspace Hex.
  enter_pvc Hpvc.
  unfold create_in, snapshot_name_at, snapshot_class_of in Hcreate. rewrite Hcreate, Hri.
  unfold logged; simpl. by rewrite <- !app_assoc.
Qed.

Lemma TakeSnapshot_pvc_waited st req pod wso sts (w1 w2 : W)
    (ready : bool) (werr : option error) :
  exists_with m st (tsq_Id req) pod wso sts →
  pvc_running X wso sts →
  create_in X m st wso = (None, w1) →
  tsq_ReturnImmediately req = false →
  waitForWorkspaceVolumeSnapshotReady m w1 (snapshot_name_at m st wso) = ((ready, werr), w2) →
  TakeSnapshot X m req st
  = (match werr with
     | Some err =>
         inr (status_Errorf Internal
                "cannot wait for volume snapshot to be ready: %q" [AErr err])
     | None =>
         if ready then inl {| tsr_Url := snapshot_name_at m st wso |}
         else inr (status_Errorf Internal "volume snapshot is not ready" [])
     end,
     {| world := w2;
        trace := trace st
                 ++ [CallFindWorkspacePod (tsq_Id req); CallGetWorkspaceObjects pod;
                     CallTimeNow; create_call X m st wso;
                     CallWaitForWorkspaceVolumeSnapshotReady (snapshot_name_at m st wso)] |}).
Proof.
  intros Hex Hpvc Hcreate Hri Hwait. run_handler @TakeSnapshot. resolve_workspace Hex.
  enter_pvc Hpvc.
  unfold create_in, snapshot_name_at, snapshot_class_of in Hcreate. rewrite Hcreate, Hri. simpl.
  unfold snapshot_name_at in Hwait. rewrite Hwait.
  unfold logged; simpl. rewrite <- !app_assoc. simpl.
  by destruct werr, ready.
Qed.

Ltac enter_daemon Hd :=
  destruct Hd as (Hph & Hlabel); rewrite Hph;
  rewrite bool_decide_eq_false_2 by (intros H; by apply H);
  rewrite bool_decide_eq_false_2 by (rewrite Hlabel; by intros [? ?]); simpl.

Lemma TakeSnapshot_daemon_unreachable st req pod wso sts (err : error) (w1 : W) :
  exists_with m st (tsq_Id req) pod wso sts →
  daemon_running X wso sts →
  connectToWorkspaceDaemon m (world st) (workspaceObjects_of_pod pod) = (inr err, w1) →
  TakeSnapshot X m req st
  = (inr (status_Errorf Unavailable "cannot connect to workspace daemon: %q" [AErr err]),
     {| world := w1;
        trace := trace st
                 ++ [CallFindWorkspacePod (tsq_Id req); CallGetWorkspaceObjects pod;
                     CallConnectToWorkspaceDaemon (workspaceObjects_of_pod pod)] |}).
Proof.
  intros Hex Hd Hconn. run_handler @TakeSnapshot. resolve_workspace Hex.
  enter_daemon Hd. rewrite Hconn.
  unfold logged; simpl. by rewrite <- !app_assoc.
Qed.

Lemma TakeSnapshot_daemon_called st req pod wso sts (sync : Conn) (w1 w2 : W)
    (r : result DaemonTakeSnapshotResponse) :
  exists_with m st (tsq_Id req) pod wso sts →
  daemon_running X wso sts →
  connectToWorkspaceDaemon m (world st) (workspaceObjects_of_pod pod) = (inl sync, w1) →
  sync_TakeSnapshot m w1 sync
    {| dtq_Id := tsq_Id req; dtq_ReturnImmediately := tsq_ReturnImmediately req |} = (r, w2) →
  TakeSnapshot X m req st
  = (match r with
     | inr err => inr err
     | inl r => inl {| tsr_Url := dtr_Url r |}
     end,
     {| world := w2;
        trace := trace st
                 ++ [CallFindWorkspacePod (tsq_Id req); CallGetWorkspaceObjects pod;
                     CallConnectToWorkspaceDaemon (workspaceObjects_of_pod pod);
                     CallDaemonTakeSnapshot
                       {| dtq_Id := tsq_Id req;
                          dtq_ReturnImmediately := tsq_ReturnImmediately req |}] |}).
Proof.
  intros Hex Hd Hconn Hrpc. run_handler @TakeSnapshot. resolve_workspace Hex.
  enter_daemon Hd. rewrite Hconn; simpl. rewrite Hrpc.
  unfold logged; simpl. rewrite <- !app_assoc. by destruct r.
Qed.

Lemma BackupWorkspace_unreachable st req pod (err : error) (w1 : W) :
  findWorkspacePod m (world st) (bwq_Id req) = inl pod →
  connectToWorkspaceDaemon m (world st) (workspaceObjects_of_pod pod) = (inr err, w1) →
  BackupWorkspace m req st
  = (inr (status_Errorf Unavailable "cannot connect to workspace daemon: %q" [AErr err]),
     {| world := w1;
        trace := trace st
                 ++ [CallFindWorkspacePod (bwq_Id req);
                     CallConnectToWorkspaceDaemon (workspaceObjects_of_pod pod)] |}).
Proof.
  intros Hfind Hconn. run_handler @BackupWorkspace. rewrite Hfind; simpl. rewrite Hconn.
  unfold logged; simpl. by rewrite <- !app_assoc.
Qed.

Lemma BackupWorkspace_called st req pod (sync : Conn) (w1 w2 : W)
    (r : result DaemonBackupWorkspaceResponse) :
  findWorkspacePod m (world st) (bwq_Id req) = inl pod →
  connectToWorkspaceDaemon m (world st) (workspaceObjects_of_pod pod) = (inl sync, w1) →
  sync_BackupWorkspace m w1 sync {| dbq_Id := bwq_Id req |} = (r, w2) →
  BackupWorkspace m req st
  = (match r with
     | inr err => inr err
     | inl r => inl {| bwr_Url := dbr_Url r |}
     end,
     {| world := w2;
        trace := trace st
                 ++ [CallFindWorkspacePod (bwq_Id req);
                     CallConnectToWorkspaceDaemon (workspaceObjects_of_pod pod);
                     CallDaemonBackupWorkspace {| dbq_Id := bwq_Id req |}] |}).
Proof.
  intros Hfind Hconn Hrpc. run_handler @BackupWorkspace. rewrite Hfind; simpl.
  rewrite Hconn; simpl. rewrite Hrpc.
  unfold logged; simpl. rewrite <- !app_assoc. by destruct r.
Qed.

Lemma GetVolumeSnapshot_eq st req :
  GetVolumeSnapshot X m req st
  = (match checkWorkspaceVolumeSnapshotIsReady m (world st) (gvq_Id req) with
     | inr err =>
         if bool_decide (status_Code_at (grpc_unwraps X) err = NotFound) then
           inr (status_Errorf NotFound "volume snapshot %s does not exist" [AStr (gvq_Id req)])
         else
           inr (status_Errorf Internal "cannot check if volume snapshot is ready: %q" [AErr err])
     | inl ready => inl {| gvr_Id := gvq_Id req; gvr_Ready := ready |}
     end,
     {| world := world st;
        trace := trace st ++ [CallCheckWorkspaceVolumeSnapshotIsReady (gvq_Id req)] |}).
Proof.
  run_handler @GetVolumeSnapshot.
  destruct (checkWorkspaceVolumeSnapshotIsReady m (world st) (gvq_Id req)) as [ready|err];
    [done|by case_bool_decide].
Qed.

End Branches.

Lemma Sprintf_snapshot_inj (workspaceID : string) (t1 t2 : Z) :
  Sprintf_snapshot workspaceID t1 = Sprintf_snapshot workspaceID t2 → t1 = t2.
Proof.
  unfold Sprintf_snapshot. intros H.
  repeat (apply (inj (String.app _)) in H). by apply (inj pretty) in H.
Qed.

(** ** The operations of the manager *)

Section Claims.
Context {W Conn : Type} (X : Externals) (m : Manager W Conn).

Implicit Types (st : mstate W) (pod : Pod) (wso : workspaceObjects)
  (sts : WorkspaceStatus) (e : error).

(** C1 (as amended).  For a workspace ID with no backing pod, TakeSnapshot,
    ControlAdmission and BackupWorkspace return a NotFound error after the pod
    lookup alone: the world is unchanged and nothing else is called (no mark,
    no snapshot request, no daemon contact).  SetTimeout does not look the
    pod up: when the duration parses, its one call is the annotation mark,
    and it returns success or, wrapped without a status class, the error of
    the mark. *)
Theorem missing_pod_not_found st (workspaceID : string) :
  no_backing_pod m st workspaceID →
  (∀ ri,
     let out := TakeSnapshot X m
                  {| tsq_Id := workspaceID; tsq_ReturnImmediately := ri |} st in
     not_found_untouched st out ∧ calls_of st out = [CallFindWorkspacePod workspaceID])
  ∧ (∀ level,
       let out := ControlAdmission X m {| caq_Id := workspaceID; caq_Level := level |} st in
       not_found_untouched st out ∧ calls_of st out = [CallFindWorkspacePod workspaceID])
  ∧ (let out := BackupWorkspace m {| bwq_Id := workspaceID |} st in
     not_found_untouched st out ∧ calls_of st out = [CallFindWorkspacePod workspaceID]
     ∧ existsb is_daemon (calls_of st out) = false)
  ∧ (∀ (duration : string) (d : Z) (err : option error) (w' : W),
       time_ParseDuration X duration = inl d →
       markWorkspace m (world st) workspaceID
         (addMark (customTimeoutAnnotation X) duration) = (err, w') →
       let out := SetTimeout X m {| stq_Id := workspaceID; stq_Duration := duration |} st in
       calls_of st out
       = [CallMarkWorkspace workspaceID (addMark (customTimeoutAnnotation X) duration)]
       ∧ existsb is_mark (calls_of st out) = true
       ∧ world (snd out) = w'
       ∧ fst out = match err with
                   | Some err =>
                       inr (xerrors_Errorf "cannot set workspace timeout: %w" [AErr err])
                   | None => inl Build_SetTimeoutResponse
                   end).
Proof.
  intros (e & Hfind & Hnf). split; [|split; [|split]].
  - intros ri. cbv zeta. rewrite (TakeSnapshot_missing X m st _ e) by done.
    split; [apply not_found_looked_up | unfold looked_up; by rewrite calls_of_app].
  - intros level. cbv zeta. rewrite (ControlAdmission_missing X m st _ e) by done.
    split; [apply not_found_looked_up | unfold looked_up; by rewrite calls_of_app].
  - cbv zeta. rewrite (BackupWorkspace_missing m st _ e) by done.
    split; [apply not_found_looked_up | unfold looked_up; by rewrite calls_of_app].
  - intros duration d err w' Hparse Hmark. cbv zeta.
    rewrite (SetTimeout_parsed X m st _ d err w') by done.
    by rewrite calls_of_app.
Qed.

(** C2 (as amended).  On an existing workspace in any phase other than
    STOPPING and STOPPED (RUNNING and CREATING among them), ControlAdmission
    with a level that is not a recognised enumeration value returns an
    InvalidArgument error, and nothing is written. *)
Theorem unknown_level_invalid_argument st req pod wso sts :
  exists_with m st (caq_Id req) pod wso sts →
  AdmissionLevel_name X !! caq_Level req = None →
  sts_Phase sts ≠ WorkspacePhase_STOPPING →
  sts_Phase sts ≠ WorkspacePhase_STOPPED →
  invalid_argument_untouched st (ControlAdmission X m req st).
Proof.
  intros Hex Hlvl Hp1 Hp2.
  rewrite (ControlAdmission_invalid_level X m st req pod wso sts); [|done| |done].
  - split; [apply classified_status | by apply untouched_reads].
  - unfold stopping_or_stopped. by rewrite !bool_decide_eq_false_2.
Qed.

(** C3 (as amended).  When the duration string does not parse, SetTimeout
    returns the parse error wrapped by xerrors ("invalid duration ..."),
    which carries no gRPC status and so is classified Unknown, not
    InvalidArgument; the state is exactly the one it started in: no call was
    made and no annotation written. *)
Theorem unparsable_duration_rejected st req (msg : string) :
  time_ParseDuration X (stq_Duration req) = inr msg →
  fst (SetTimeout X m req st)
  = inr (xerrors_Errorf ("invalid duration " +:+ dquote +:+ "%s" +:+ dquote +:+ ": %w")
           [AStr (stq_Duration req); AErr (PlainError msg)])
  ∧ classified (fst (SetTimeout X m req st)) Unknown
  ∧ snd (SetTimeout X m req st) = st
  ∧ untouched st (SetTimeout X m req st).
Proof.
  intros Hparse. rewrite (SetTimeout_unparsed X m st req msg Hparse). simpl.
  repeat split; [by eexists | by rewrite calls_of_same].
Qed.

(** C4 (as amended).  On an existing workspace, ControlAdmission in phase
    STOPPING or STOPPED returns a FailedPrecondition error and makes no call
    beyond the two reads; in phase RUNNING or CREATING with a recognised
    level its one write is the mark of the admission annotation with the
    lower-cased name of the level, and it returns success when that mark
    reports no error; a failed mark is reported as Internal. *)
Theorem admission_gated_by_phase st req pod wso sts :
  exists_with m st (caq_Id req) pod wso sts →
  (sts_Phase sts = WorkspacePhase_STOPPING ∨ sts_Phase sts = WorkspacePhase_STOPPED →
   classified (fst (ControlAdmission X m req st)) FailedPrecondition
   ∧ untouched st (ControlAdmission X m req st)
   ∧ calls_of st (ControlAdmission X m req st)
     = [CallFindWorkspacePod (caq_Id req); CallGetWorkspaceObjects pod]
   ∧ existsb is_mark (calls_of st (ControlAdmission X m req st)) = false)
  ∧ (sts_Phase sts = WorkspacePhase_RUNNING ∨ sts_Phase sts = WorkspacePhase_CREATING →
     ∀ (name : string) (err : option error) (w' : W),
       AdmissionLevel_name X !! caq_Level req = Some name →
       markWorkspace m (world st) (caq_Id req)
         (addMark (WorkspaceAdmissionAnnotation X) (strings_ToLower name)) = (err, w') →
       calls_of st (ControlAdmission X m req st)
       = [CallFindWorkspacePod (caq_Id req); CallGetWorkspaceObjects pod;
          CallMarkWorkspace (caq_Id req)
            (addMark (WorkspaceAdmissionAnnotation X) (strings_ToLower name))]
       ∧ world (snd (ControlAdmission X m req st)) = w'
       ∧ (err = None → fst (ControlAdmission X m req st) = inl Build_ControlAdmissionResponse)
       ∧ (is_Some err → classified (fst (ControlAdmission X m req st)) Internal)).
Proof.
  intros Hex. split.
  - intros Hph.
    rewrite (ControlAdmission_stopping X m st req pod wso sts); [|done|].
    + split; [apply classified_status|]. split; [by apply untouched_reads|].
      unfold resolved. by rewrite !calls_of_app.
    + unfold stopping_or_stopped. destruct Hph as [-> | ->]; done.
  - intros Hph name err w' Hlvl Hmark.
    rewrite (ControlAdmission_marked X m st req pod wso sts name err w'); [|done| |done|done].
    + rewrite calls_of_app. simpl. repeat split.
      * by intros ->.
      * intros [e' ->]. apply classified_status.
    + unfold stopping_or_stopped. destruct Hph as [-> | ->]; done.
Qed.

(** C5 (as amended).  For a RUNNING workspace whose pod carries the PVC
    feature label, TakeSnapshot requests the volume snapshot under the name
    "snapshot-" + workspaceID + "-" + the nanosecond clock reading, and every
    success response carries exactly that name as its URL.  Two calls for the
    same workspace get the same name exactly when they read the same
    timestamp: names are distinct whenever the clock readings differ. *)
Theorem snapshot_name_from_clock st req pod wso sts :
  exists_with m st (tsq_Id req) pod wso sts →
  pvc_running X wso sts →
  snapshot_name_at m st wso
  = "snapshot-" +:+ fst (WorkspaceID m wso) +:+ "-"
    +:+ pretty (time_Now_UnixNano m (world st))
  ∧ (∃ rest,
       calls_of st (TakeSnapshot X m req st)
       = ([CallFindWorkspacePod (tsq_Id req); CallGetWorkspaceObjects pod;
           CallTimeNow; create_call X m st wso] ++ rest)%list)
  ∧ (∀ resp, fst (TakeSnapshot X m req st) = inl resp →
             tsr_Url resp = snapshot_name_at m st wso)
  ∧ (∀ st', snapshot_name_at m st' wso = snapshot_name_at m st wso
            ↔ time_Now_UnixNano m (world st') = time_Now_UnixNano m (world st)).
Proof.
  intros Hex Hpvc. split; [done|].
  assert (∀ st', snapshot_name_at m st' wso = snapshot_name_at m st wso
            ↔ time_Now_UnixNano m (world st') = time_Now_UnixNano m (world st)) as Hinj.
  { intros st'. unfold snapshot_name_at. split.
    - apply Sprintf_snapshot_inj.
    - by intros ->. }
  destruct (create_in X m st wso) as [[cerr|] w1] eqn:Hcreate.
  - rewrite (TakeSnapshot_pvc_create_failed X m st req pod wso sts cerr w1) by done.
    rewrite calls_of_app. simpl. split; [by exists []|]. split; [done|exact Hinj].
  - destruct (tsq_ReturnImmediately req) eqn:Hri.
    + rewrite (TakeSnapshot_pvc_immediately X m st req pod wso sts w1) by done.
      rewrite calls_of_app. simpl. split; [by exists []|].
      split; [by intros resp [= <-]|exact Hinj].
    + destruct (waitForWorkspaceVolumeSnapshotReady m w1 (snapshot_name_at m st wso))
        as [[ready werr] w2] eqn:Hwait.
      rewrite (TakeSnapshot_pvc_waited X m st req pod wso sts w1 w2 ready werr) by done.
      rewrite calls_of_app. simpl. split; [by eexists [_]|].
      split; [|exact Hinj].
      intros resp. destruct werr, ready; try done. by intros [= <-].
Qed.

(** C6.  On an existing workspace whose derived phase is not RUNNING,
    TakeSnapshot returns a FailedPrecondition error.  The status it checks is
    the one derived from the objects it read in this very call: its calls are
    the pod lookup and the object read, in that order, and nothing of either
    snapshot strategy; the world is unchanged. *)
Theorem snapshot_requires_running st req pod wso sts :
  exists_with m st (tsq_Id req) pod wso sts →
  sts_Phase sts ≠ WorkspacePhase_RUNNING →
  classified (fst (TakeSnapshot X m req st)) FailedPrecondition
  ∧ calls_of st (TakeSnapshot X m req st)
    = [CallFindWorkspacePod (tsq_Id req); CallGetWorkspaceObjects pod]
  ∧ existsb is_snapshot_strategy (calls_of st (TakeSnapshot X m req st)) = false
  ∧ untouched st (TakeSnapshot X m req st).
Proof.
  intros Hex Hph.
  rewrite (TakeSnapshot_not_running X m st req pod wso sts) by done.
  unfold resolved. rewrite calls_of_app. simpl.
  split; [apply classified_status|]. repeat split. by rewrite calls_of_app.
Qed.

(** C7.  TakeSnapshot on a PVC-backed RUNNING workspace with synchronous
    completion requested (ReturnImmediately = false), once the snapshot was
    requested: if the readiness wait ends with an error or without the
    snapshot ready, the result is an Internal error; a success response is
    returned only when the wait reported the snapshot ready without error,
    and then it is returned, with the snapshot name as URL. *)
Theorem unready_snapshot_is_internal st req pod wso sts (w1 w2 : W)
    (ready : bool) (werr : option error) :
  exists_with m st (tsq_Id req) pod wso sts →
  pvc_running X wso sts →
  tsq_ReturnImmediately req = false →
  create_in X m st wso = (None, w1) →
  waitForWorkspaceVolumeSnapshotReady m w1 (snapshot_name_at m st wso) = ((ready, werr), w2) →
  (is_Some werr ∨ ready = false → classified (fst (TakeSnapshot X m req st)) Internal)
  ∧ (∀ resp, fst (TakeSnapshot X m req st) = inl resp → ready = true ∧ werr = None)
  ∧ (ready = true → werr = None →
     fst (TakeSnapshot X m req st) = inl {| tsr_Url := snapshot_name_at m st wso |}).
Proof.
  intros Hex Hpvc Hri Hcreate Hwait.
  rewrite (TakeSnapshot_pvc_waited X m st req pod wso sts w1 w2 ready werr) by done.
  simpl. repeat split.
  - intros [[e' ->] | ->]; [apply classified_status|].
    destruct werr; apply classified_status.
  - by destruct werr, ready.
  - by destruct werr, ready.
  - by intros -> ->.
Qed.

(** C8.  In the daemon-mediated path of TakeSnapshot (RUNNING workspace
    without the PVC feature label) and in BackupWorkspace (any existing pod):
    a failed connection to the daemon is an Unavailable error and no RPC is
    made; an error returned by the daemon's RPC is the handler's error, the
    very same value; on success the response carries the daemon's URL. *)
Theorem daemon_errors_pass_through st :
  (∀ req pod wso sts (conn : result Conn) (w1 : W),
     exists_with m st (tsq_Id req) pod wso sts →
     daemon_running X wso sts →
     connectToWorkspaceDaemon m (world st) (workspaceObjects_of_pod pod) = (conn, w1) →
     match conn with
     | inr err =>
         classified (fst (TakeSnapshot X m req st)) Unavailable
         ∧ calls_of st (TakeSnapshot X m req st)
           = [CallFindWorkspacePod (tsq_Id req); CallGetWorkspaceObjects pod;
              CallConnectToWorkspaceDaemon (workspaceObjects_of_pod pod)]
     | inl sync =>
         ∀ (r : result DaemonTakeSnapshotResponse) (w2 : W),
           sync_TakeSnapshot m w1 sync
             {| dtq_Id := tsq_Id req;
                dtq_ReturnImmediately := tsq_ReturnImmediately req |} = (r, w2) →
           fst (TakeSnapshot X m req st)
           = match r with
             | inr err => inr err
             | inl r => inl {| tsr_Url := dtr_Url r |}
             end
     end)
  ∧ (∀ req pod (conn : result Conn) (w1 : W),
       findWorkspacePod m (world st) (bwq_Id req) = inl pod →
       connectToWorkspaceDaemon m (world st) (workspaceObjects_of_pod pod) = (conn, w1) →
       match conn with
       | inr err =>
           classified (fst (BackupWorkspace m req st)) Unavailable
           ∧ calls_of st (BackupWorkspace m req st)
             = [CallFindWorkspacePod (bwq_Id req);
                CallConnectToWorkspaceDaemon (workspaceObjects_of_pod pod)]
       | inl sync =>
           ∀ (r : result DaemonBackupWorkspaceResponse) (w2 : W),
             sync_BackupWorkspace m w1 sync {| dbq_Id := bwq_Id req |} = (r, w2) →
             fst (BackupWorkspace m req st)
             = match r with
               | inr err => inr err
               | inl r => inl {| bwr_Url := dbr_Url r |}
               end
       end).
Proof.
  split.
  - intros req pod wso sts [sync|err] w1 Hex Hd Hconn.
    + intros r w2 Hrpc.
      by rewrite (TakeSnapshot_daemon_called X m st req pod wso sts sync w1 w2 r).
    + rewrite (TakeSnapshot_daemon_unreachable X m st req pod wso sts err w1) by done.
      rewrite calls_of_app. split; [apply classified_status|done].
  - intros req pod [sync|err] w1 Hfind Hconn.
    + intros r w2 Hrpc.
      by rewrite (BackupWorkspace_called m st req pod sync w1 w2 r).
    + rewrite (BackupWorkspace_unreachable m st req pod err w1) by done.
      rewrite calls_of_app. split; [apply classified_status|done].
Qed.

(** C9.  GetVolumeSnapshot only asks whether the snapshot is ready: its one
    call is the readiness check, it neither looks up a pod nor derives a
    phase, and the world is unchanged.  When the check fails with an error
    whose status.Code is NotFound (unknown snapshot ID) the result is
    NotFound; when it fails with any other error the result is Internal;
    otherwise the response carries the requested ID and the readiness the
    check reported, false or true.  status.Code is the one of the grpc
    module in use, either version. *)
Theorem volume_snapshot_readiness st req :
  calls_of st (GetVolumeSnapshot X m req st)
  = [CallCheckWorkspaceVolumeSnapshotIsReady (gvq_Id req)]
  ∧ untouched st (GetVolumeSnapshot X m req st)
  ∧ (∀ e, checkWorkspaceVolumeSnapshotIsReady m (world st) (gvq_Id req) = inr e →
          status_Code_at (grpc_unwraps X) e = NotFound →
          classified (fst (GetVolumeSnapshot X m req st)) NotFound)
  ∧ (∀ e, checkWorkspaceVolumeSnapshotIsReady m (world st) (gvq_Id req) = inr e →
          status_Code_at (grpc_unwraps X) e ≠ NotFound →
          classified (fst (GetVolumeSnapshot X m req st)) Internal)
  ∧ (∀ ready, checkWorkspaceVolumeSnapshotIsReady m (world st) (gvq_Id req) = inl ready →
              fst (GetVolumeSnapshot X m req st)
              = inl {| gvr_Id := gvq_Id req; gvr_Ready := ready |}).
Proof.
  rewrite GetVolumeSnapshot_eq. rewrite calls_of_app. simpl.
  split; [done|]. split; [by apply untouched_reads|]. repeat split.
  - intros e -> Hc. rewrite bool_decide_eq_true_2 by done. apply classified_status.
  - intros e -> Hc. rewrite bool_decide_eq_false_2 by done. apply classified_status.
  - by intros ready ->.
Qed.

(** C10.  ControlAdmission checks the phase before the level.  On an existing
    workspace in phase STOPPING or STOPPED it returns the FailedPrecondition
    error whatever the level is, recognised or not, so an unrecognised level
    is not reported as InvalidArgument there; conversely, whenever it does
    return InvalidArgument the phase is neither STOPPING nor STOPPED. *)
Theorem phase_checked_before_level st req pod wso sts :
  exists_with m st (caq_Id req) pod wso sts →
  (sts_Phase sts = WorkspacePhase_STOPPING ∨ sts_Phase sts = WorkspacePhase_STOPPED →
   (∀ level,
      fst (ControlAdmission X m {| caq_Id := caq_Id req; caq_Level := level |} st)
      = inr (status_Errorf FailedPrecondition
               "cannot control admission of stopping workspaces" []))
   ∧ (AdmissionLevel_name X !! caq_Level req = None →
      classified (fst (ControlAdmission X m req st)) FailedPrecondition
      ∧ ¬ classified (fst (ControlAdmission X m req st)) InvalidArgument))
  ∧ (classified (fst (ControlAdmission X m req st)) InvalidArgument →
     sts_Phase sts ≠ WorkspacePhase_STOPPING ∧ sts_Phase sts ≠ WorkspacePhase_STOPPED
     ∧ AdmissionLevel_name X !! caq_Level req = None).
Proof.
  intros Hex. split.
  - intros Hph.
    assert (stopping_or_stopped (sts_Phase sts) = true) as Hstop.
    { unfold stopping_or_stopped. destruct Hph as [-> | ->]; done. }
    split.
    + intros level.
      by rewrite (ControlAdmission_stopping X m st _ pod wso sts).
    + intros _. rewrite (ControlAdmission_stopping X m st req pod wso sts) by done.
      simpl. split; [apply classified_status|]. by intros (e' & [= <-] & Hc).
  - destruct (stopping_or_stopped (sts_Phase sts)) eqn:Hstop.
    { rewrite (ControlAdmission_stopping X m st req pod wso sts) by done.
      by intros (e' & [= <-] & Hc). }
    destruct (AdmissionLevel_name X !! caq_Level req) as [name|] eqn:Hlvl.
    { destruct (markWorkspace m (world st) (caq_Id req)
                  (addMark (WorkspaceAdmissionAnnotation X) (strings_ToLower name)))
        as [err w'] eqn:Hmark.
      rewrite (ControlAdmission_marked X m st req pod wso sts name err w') by done.
      destruct err; by intros (e' & [= <-] & Hc). }
    intros _. unfold stopping_or_stopped in Hstop.
    apply orb_false_iff in Hstop as [H1 H2].
    apply bool_decide_eq_false in H1, H2. done.
Qed.

End Claims.

(** ** The handlers on the four-workspace cluster *)

Lemma scenario_exists (w : Sim.world) (trace0 : list Call) (workspaceID : string) (pod : Pod) :
  Sim.pods w !! workspaceID = Some pod →
  exists_with Scenario.m {| world := w; trace := trace0 |} workspaceID pod
    (Scenario.objects pod) (Scenario.status pod).
Proof.
  intros Hpod. unfold exists_with; simpl. unfold Sim.findWorkspacePod. by rewrite Hpod.
Qed.

Lemma scenario_missing (w : Sim.world) (trace0 : list Call) (workspaceID : string) :
  Sim.pods w !! workspaceID = None →
  no_backing_pod Scenario.m {| world := w; trace := trace0 |} workspaceID.
Proof.
  intros Hpod. exists (Sim.not_found workspaceID); simpl.
  unfold Sim.findWorkspacePod. by rewrite Hpod.
Qed.

(** Workspace w2 is unknown to the cluster: BackupWorkspace(w2) is NotFound
    and the daemon is not contacted. *)
Lemma missing_pod_not_found_witness :
  no_backing_pod Scenario.m (Scenario.start Scenario.cluster) "w2"
  ∧ not_found_untouched (Scenario.start Scenario.cluster)
      (BackupWorkspace Scenario.m {| bwq_Id := "w2" |} (Scenario.start Scenario.cluster))
  ∧ calls_of (Scenario.start Scenario.cluster)
      (BackupWorkspace Scenario.m {| bwq_Id := "w2" |} (Scenario.start Scenario.cluster))
    = [CallFindWorkspacePod "w2"]
  ∧ existsb is_daemon
      (calls_of (Scenario.start Scenario.cluster)
         (BackupWorkspace Scenario.m {| bwq_Id := "w2" |} (Scenario.start Scenario.cluster)))
    = false.
Proof.
  assert (no_backing_pod Scenario.m (Scenario.start Scenario.cluster) "w2") as Hmissing.
  { apply scenario_missing. vm_compute. reflexivity. }
  split; [exact Hmissing|].
  exact (proj1 (proj2 (proj2
           (missing_pod_not_found Scenario.X Scenario.m _ "w2" Hmissing)))).
Defined.

(** SetTimeout(w2, "1h") on the same cluster: the mark is attempted, and the
    error that comes back is not a NotFound status. *)
Lemma SetTimeout_missing_pod_counterexample :
  no_backing_pod Scenario.m (Scenario.start Scenario.cluster) "w2"
  ∧ calls_of (Scenario.start Scenario.cluster)
      (SetTimeout Scenario.X Scenario.m {| stq_Id := "w2"; stq_Duration := "1h" |}
         (Scenario.start Scenario.cluster))
    = [CallMarkWorkspace "w2" (addMark "gitpod/customTimeout" "1h")]
  ∧ existsb is_mark
      (calls_of (Scenario.start Scenario.cluster)
         (SetTimeout Scenario.X Scenario.m {| stq_Id := "w2"; stq_Duration := "1h" |}
            (Scenario.start Scenario.cluster)))
    = true
  ∧ ¬ classified
        (fst (SetTimeout Scenario.X Scenario.m {| stq_Id := "w2"; stq_Duration := "1h" |}
                (Scenario.start Scenario.cluster))) NotFound
  ∧ ¬ not_found_untouched (Scenario.start Scenario.cluster)
        (SetTimeout Scenario.X Scenario.m {| stq_Id := "w2"; stq_Duration := "1h" |}
           (Scenario.start Scenario.cluster)).
Proof.
  assert (¬ classified
        (fst (SetTimeout Scenario.X Scenario.m {| stq_Id := "w2"; stq_Duration := "1h" |}
                (Scenario.start Scenario.cluster))) NotFound) as Hclass.
  { intros (e & He & Hc). vm_compute in He. injection He as <-. by vm_compute in Hc. }
  split; [apply scenario_missing; by vm_compute|].
  split; [by vm_compute|]. split; [by vm_compute|]. split; [exact Hclass|].
  intros [H _]. by apply Hclass.
Qed.

Ltac not_classified :=
  let e := fresh "e" in
  let He := fresh "He" in
  let Hc := fresh "Hc" in
  intros (e & He & Hc); vm_compute in He; injection He as <-; by vm_compute in Hc.

(** Workspace w5 is still being created: an unknown level is an
    InvalidArgument there. *)
Lemma unknown_level_invalid_argument_witness :
  invalid_argument_untouched (Scenario.start Scenario.cluster)
    (ControlAdmission Scenario.X Scenario.m {| caq_Id := "w5"; caq_Level := 7 |}
       (Scenario.start Scenario.cluster)).
Proof.
  apply (unknown_level_invalid_argument Scenario.X Scenario.m _
           {| caq_Id := "w5"; caq_Level := 7 |}
           Scenario.w5 (Scenario.objects Scenario.w5) (Scenario.status Scenario.w5)).
  - apply scenario_exists. vm_compute. reflexivity.
  - vm_compute. reflexivity.
  - vm_compute. discriminate.
  - vm_compute. discriminate.
Defined.

(** Workspace w4 is STOPPING: the same unknown level is answered with
    FailedPrecondition, not InvalidArgument. *)
Lemma unknown_level_stopping_counterexample :
  exists_with Scenario.m (Scenario.start Scenario.cluster) "w4"
    Scenario.w4 (Scenario.objects Scenario.w4) (Scenario.status Scenario.w4)
  ∧ sts_Phase (Scenario.status Scenario.w4) = WorkspacePhase_STOPPING
  ∧ AdmissionLevel_name Scenario.X !! 7 = None
  ∧ classified
      (fst (ControlAdmission Scenario.X Scenario.m {| caq_Id := "w4"; caq_Level := 7 |}
              (Scenario.start Scenario.cluster))) FailedPrecondition
  ∧ ¬ classified
        (fst (ControlAdmission Scenario.X Scenario.m {| caq_Id := "w4"; caq_Level := 7 |}
                (Scenario.start Scenario.cluster))) InvalidArgument.
Proof.
  split; [apply scenario_exists; by vm_compute|].
  split; [by vm_compute|]. split; [by vm_compute|].
  split; [|not_classified].
  eexists. split; [by vm_compute|done].
Qed.

(** SetTimeout(w1, "not-a-duration"): rejected with the wrapped parse error,
    and the state is untouched. *)
Lemma unparsable_duration_rejected_witness :
  classified
    (fst (SetTimeout Scenario.X Scenario.m
            {| stq_Id := "w1"; stq_Duration := "not-a-duration" |}
            (Scenario.start Scenario.cluster))) Unknown
  ∧ snd (SetTimeout Scenario.X Scenario.m
           {| stq_Id := "w1"; stq_Duration := "not-a-duration" |}
           (Scenario.start Scenario.cluster))
    = Scenario.start Scenario.cluster.
Proof.
  destruct (unparsable_duration_rejected Scenario.X Scenario.m
              (Scenario.start Scenario.cluster)
              {| stq_Id := "w1"; stq_Duration := "not-a-duration" |}
              (Sim.invalid "not-a-duration")) as (_ & Hclass & Hstate & _).
  - vm_compute. reflexivity.
  - split; [exact Hclass | exact Hstate].
Defined.

(** The error of that call is not an InvalidArgument status. *)
Lemma unparsable_duration_counterexample :
  time_ParseDuration Scenario.X "not-a-duration" = inr (Sim.invalid "not-a-duration")
  ∧ ¬ classified
        (fst (SetTimeout Scenario.X Scenario.m
                {| stq_Id := "w1"; stq_Duration := "not-a-duration" |}
                (Scenario.start Scenario.cluster))) InvalidArgument
  ∧ ¬ invalid_argument_untouched (Scenario.start Scenario.cluster)
        (SetTimeout Scenario.X Scenario.m
           {| stq_Id := "w1"; stq_Duration := "not-a-duration" |}
           (Scenario.start Scenario.cluster)).
Proof.
  assert (¬ classified
        (fst (SetTimeout Scenario.X Scenario.m
                {| stq_Id := "w1"; stq_Duration := "not-a-duration" |}
                (Scenario.start Scenario.cluster))) InvalidArgument) as Hclass
    by not_classified.
  split; [by vm_compute|]. split; [exact Hclass|].
  intros [H _]. by apply Hclass.
Qed.

(** ControlAdmission(w1, ADMIT_EVERYONE) on the running workspace w1: one
    mark, with the lower-cased level name, and success; on the stopping
    workspace w4: FailedPrecondition. *)
Lemma admission_gated_by_phase_witness :
  calls_of (Scenario.start Scenario.cluster)
    (ControlAdmission Scenario.X Scenario.m {| caq_Id := "w1"; caq_Level := 1 |}
       (Scenario.start Scenario.cluster))
  = [CallFindWorkspacePod "w1"; CallGetWorkspaceObjects Scenario.w1;
     CallMarkWorkspace "w1" (addMark "gitpod/admission" "admit_everyone")]
  ∧ fst (ControlAdmission Scenario.X Scenario.m {| caq_Id := "w1"; caq_Level := 1 |}
           (Scenario.start Scenario.cluster))
    = inl Build_ControlAdmissionResponse
  ∧ classified
      (fst (ControlAdmission Scenario.X Scenario.m {| caq_Id := "w4"; caq_Level := 1 |}
              (Scenario.start Scenario.cluster))) FailedPrecondition.
Proof.
  destruct (admission_gated_by_phase Scenario.X Scenario.m
              (Scenario.start Scenario.cluster) {| caq_Id := "w1"; caq_Level := 1 |}
              Scenario.w1 (Scenario.objects Scenario.w1) (Scenario.status Scenario.w1))
    as [_ Hrun].
  { apply scenario_exists. vm_compute. reflexivity. }
  destruct (admission_gated_by_phase Scenario.X Scenario.m
              (Scenario.start Scenario.cluster) {| caq_Id := "w4"; caq_Level := 1 |}
              Scenario.w4 (Scenario.objects Scenario.w4) (Scenario.status Scenario.w4))
    as [Hstop _].
  { apply scenario_exists. vm_compute. reflexivity. }
  destruct (Hrun (or_introl eq_refl) "ADMIT_EVERYONE" None
              (snd (Sim.markWorkspace Scenario.cluster "w1"
                      (addMark "gitpod/admission" "admit_everyone"))))
    as (Hcalls & _ & Hok & _).
  { vm_compute. reflexivity. }
  { vm_compute. reflexivity. }
  split; [exact Hcalls|]. split; [exact (Hok eq_refl)|].
  exact (proj1 (Hstop (or_introl eq_refl))).
Defined.

(** ControlAdmission(w1, ADMIT_EVERYONE) on the running workspace w1 while
    the cluster refuses the write: the level is valid and the phase is
    RUNNING, and the call fails with Internal. *)
Lemma admission_mark_refused_counterexample :
  exists_with Outage.marks_refused (Scenario.start Scenario.cluster) "w1"
    Scenario.w1 (Scenario.objects Scenario.w1) (Scenario.status Scenario.w1)
  ∧ sts_Phase (Scenario.status Scenario.w1) = WorkspacePhase_RUNNING
  ∧ AdmissionLevel_name Scenario.X !! 1 = Some "ADMIT_EVERYONE"
  ∧ fst (ControlAdmission Scenario.X Outage.marks_refused
           {| caq_Id := "w1"; caq_Level := 1 |} (Scenario.start Scenario.cluster))
    = inr (status_Errorf Internal "cannot change workspace admission level: %q"
             [AErr Outage.conflict_error])
  ∧ classified
      (fst (ControlAdmission Scenario.X Outage.marks_refused
              {| caq_Id := "w1"; caq_Level := 1 |} (Scenario.start Scenario.cluster)))
      Internal
  ∧ ¬ (∃ r, fst (ControlAdmission Scenario.X Outage.marks_refused
                   {| caq_Id := "w1"; caq_Level := 1 |}
                   (Scenario.start Scenario.cluster)) = inl r).
Proof.
  split; [by vm_compute|]. split; [by vm_compute|]. split; [by vm_compute|].
  split; [by vm_compute|]. split.
  - eexists. split; [by vm_compute|done].
  - intros [r Hr]. vm_compute in Hr. discriminate Hr.
Qed.

(** After that call the pod of w1 carries the annotation. *)
Example admission_annotation_written :
  Sim.pods (world (snd (ControlAdmission Scenario.X Scenario.m
                          {| caq_Id := "w1"; caq_Level := 1 |}
                          (Scenario.start Scenario.cluster)))) !! "w1"
  = Some (Sim.annotate Scenario.w1 (addMark "gitpod/admission" "admit_everyone"))
  ∧ Annotations (Sim.annotate Scenario.w1 (addMark "gitpod/admission" "admit_everyone"))
    = {[ "gitpod/id" := "w1"; "gitpod/admission" := "admit_everyone" ]}.
Proof. by vm_compute. Qed.

Lemma scenario_pvc_running :
  pvc_running Scenario.X (Scenario.objects Scenario.w3) (Scenario.status Scenario.w3).
Proof. split; [by vm_compute|]. vm_compute. by eexists. Qed.

Lemma scenario_daemon_running :
  daemon_running Scenario.X (Scenario.objects Scenario.w1) (Scenario.status Scenario.w1).
Proof. split; by vm_compute. Qed.

(** TakeSnapshot(w3) on the PVC-backed workspace at clock reading
    1667347200000000000. *)
Lemma snapshot_name_from_clock_witness :
  snapshot_name_at Scenario.m (Scenario.start Scenario.cluster) (Scenario.objects Scenario.w3)
  = "snapshot-w3-1667347200000000000"
  ∧ fst (TakeSnapshot Scenario.X Scenario.m
           {| tsq_Id := "w3"; tsq_ReturnImmediately := true |}
           (Scenario.start Scenario.cluster))
    = inl {| tsr_Url := "snapshot-w3-1667347200000000000" |}.
Proof.
  destruct (snapshot_name_from_clock Scenario.X Scenario.m
              (Scenario.start Scenario.cluster)
              {| tsq_Id := "w3"; tsq_ReturnImmediately := true |}
              Scenario.w3 (Scenario.objects Scenario.w3) (Scenario.status Scenario.w3))
    as (Hname & _ & Hurl & _).
  - apply scenario_exists. vm_compute. reflexivity.
  - exact scenario_pvc_running.
  - split.
    + rewrite Hname. vm_compute. reflexivity.
    + vm_compute. reflexivity.
Defined.

(** Two TakeSnapshot(w3) calls in a row that read the same clock value: both
    succeed, and with the same snapshot name. *)
Lemma snapshot_name_collision_counterexample :
  fst (TakeSnapshot Scenario.X Scenario.m
         {| tsq_Id := "w3"; tsq_ReturnImmediately := true |}
         (Scenario.start Scenario.cluster))
  = inl {| tsr_Url := "snapshot-w3-1667347200000000000" |}
  ∧ fst (TakeSnapshot Scenario.X Scenario.m
           {| tsq_Id := "w3"; tsq_ReturnImmediately := true |}
           (snd (TakeSnapshot Scenario.X Scenario.m
                   {| tsq_Id := "w3"; tsq_ReturnImmediately := true |}
                   (Scenario.start Scenario.cluster))))
    = inl {| tsr_Url := "snapshot-w3-1667347200000000000" |}
  ∧ ¬ (snapshot_name_at Scenario.m
         (snd (TakeSnapshot Scenario.X Scenario.m
                 {| tsq_Id := "w3"; tsq_ReturnImmediately := true |}
                 (Scenario.start Scenario.cluster)))
         (Scenario.objects Scenario.w3)
       ≠ snapshot_name_at Scenario.m (Scenario.start Scenario.cluster)
           (Scenario.objects Scenario.w3)).
Proof.
  split; [by vm_compute|]. split; [by vm_compute|].
  intros Hne. apply Hne. by vm_compute.
Qed.

(** TakeSnapshot on the pending workspace w5. *)
Lemma snapshot_requires_running_witness :
  classified
    (fst (TakeSnapshot Scenario.X Scenario.m
            {| tsq_Id := "w5"; tsq_ReturnImmediately := true |}
            (Scenario.start Scenario.cluster))) FailedPrecondition
  ∧ calls_of (Scenario.start Scenario.cluster)
      (TakeSnapshot Scenario.X Scenario.m
         {| tsq_Id := "w5"; tsq_ReturnImmediately := true |}
         (Scenario.start Scenario.cluster))
    = [CallFindWorkspacePod "w5"; CallGetWorkspaceObjects Scenario.w5].
Proof.
  destruct (snapshot_requires_running Scenario.X Scenario.m
              (Scenario.start Scenario.cluster)
              {| tsq_Id := "w5"; tsq_ReturnImmediately := true |}
              Scenario.w5 (Scenario.objects Scenario.w5) (Scenario.status Scenario.w5))
    as (Hclass & Hcalls & _).
  - apply scenario_exists. vm_compute. reflexivity.
  - vm_compute. discriminate.
  - split; [exact Hclass | exact Hcalls].
Defined.

(** A synchronous TakeSnapshot(w3) while the snapshotter is down: the wait
    ends at the deadline without readiness, and the call fails. *)
Lemma unready_snapshot_is_internal_witness :
  classified
    (fst (TakeSnapshot Scenario.X Scenario.m
            {| tsq_Id := "w3"; tsq_ReturnImmediately := false |}
            (Scenario.start Scenario.cluster_slow))) Internal.
Proof.
  refine (proj1 (unready_snapshot_is_internal Scenario.X Scenario.m
            (Scenario.start Scenario.cluster_slow)
            {| tsq_Id := "w3"; tsq_ReturnImmediately := false |}
            Scenario.w3 (Scenario.objects Scenario.w3) (Scenario.status Scenario.w3)
            (snd (create_in Scenario.X Scenario.m (Scenario.start Scenario.cluster_slow)
                    (Scenario.objects Scenario.w3)))
            (snd (create_in Scenario.X Scenario.m (Scenario.start Scenario.cluster_slow)
                    (Scenario.objects Scenario.w3)))
            false None _ scenario_pvc_running eq_refl _ _) (or_intror eq_refl)).
  - apply scenario_exists. vm_compute. reflexivity.
  - vm_compute. reflexivity.
  - vm_compute. reflexivity.
Defined.

(** TakeSnapshot(w1) through a daemon that refuses: the caller gets the
    daemon's own error.  BackupWorkspace(w1) with the daemon unreachable:
    Unavailable. *)
Lemma daemon_errors_pass_through_witness :
  fst (TakeSnapshot Scenario.X Scenario.m
         {| tsq_Id := "w1"; tsq_ReturnImmediately := true |}
         (Scenario.start Scenario.cluster_daemon_fails))
  = inr Scenario.daemon_refusal
  ∧ fst (TakeSnapshot Scenario.X Scenario.m
           {| tsq_Id := "w1"; tsq_ReturnImmediately := true |}
           (Scenario.start Scenario.cluster))
    = inl {| tsr_Url := "backup://w1/1" |}
  ∧ classified
      (fst (BackupWorkspace Scenario.m {| bwq_Id := "w1" |}
              (Scenario.start Scenario.cluster_no_daemon))) Unavailable.
Proof.
  split; [|split].
  - refine (proj1 (daemon_errors_pass_through Scenario.X Scenario.m
              (Scenario.start Scenario.cluster_daemon_fails))
              {| tsq_Id := "w1"; tsq_ReturnImmediately := true |}
              Scenario.w1 (Scenario.objects Scenario.w1) (Scenario.status Scenario.w1)
              (inl "ws-w1") Scenario.cluster_daemon_fails _ scenario_daemon_running _
              (inr Scenario.daemon_refusal) Scenario.cluster_daemon_fails _).
    + apply scenario_exists. vm_compute. reflexivity.
    + vm_compute. reflexivity.
    + vm_compute. reflexivity.
  - refine (proj1 (daemon_errors_pass_through Scenario.X Scenario.m
              (Scenario.start Scenario.cluster))
              {| tsq_Id := "w1"; tsq_ReturnImmediately := true |}
              Scenario.w1 (Scenario.objects Scenario.w1) (Scenario.status Scenario.w1)
              (inl "ws-w1") Scenario.cluster _ scenario_daemon_running _
              (inl {| dtr_Url := "backup://w1/1" |}) Scenario.cluster _).
    + apply scenario_exists. vm_compute. reflexivity.
    + vm_compute. reflexivity.
    + vm_compute. reflexivity.
  - refine (proj1 (proj2 (daemon_errors_pass_through Scenario.X Scenario.m
              (Scenario.start Scenario.cluster_no_daemon))
              {| bwq_Id := "w1" |} Scenario.w1
              (inr (PlainError "dial: connection refused")) Scenario.cluster_no_daemon _ _)).
    + vm_compute. reflexivity.
    + vm_compute. reflexivity.
Defined.

(** GetVolumeSnapshot on a snapshot that is not ready yet, on one that a
    synchronous TakeSnapshot has just waited for, and on an unknown ID. *)
Lemma volume_snapshot_readiness_witness :
  fst (GetVolumeSnapshot Scenario.X Scenario.m {| gvq_Id := "snapshot-old" |}
         (Scenario.start Scenario.cluster))
  = inl {| gvr_Id := "snapshot-old"; gvr_Ready := false |}
  ∧ fst (GetVolumeSnapshot Scenario.X Scenario.m {| gvq_Id := "snapshot-w3-1667347200000000000" |}
           (snd (TakeSnapshot Scenario.X Scenario.m
                   {| tsq_Id := "w3"; tsq_ReturnImmediately := false |}
                   (Scenario.start Scenario.cluster))))
    = inl {| gvr_Id := "snapshot-w3-1667347200000000000"; gvr_Ready := true |}
  ∧ classified
      (fst (GetVolumeSnapshot Scenario.X Scenario.m {| gvq_Id := "nope" |}
              (Scenario.start Scenario.cluster))) NotFound.
Proof.
  split; [|split].
  - apply (volume_snapshot_readiness Scenario.X Scenario.m (Scenario.start Scenario.cluster)
             {| gvq_Id := "snapshot-old" |}).
    vm_compute. reflexivity.
  - apply (volume_snapshot_readiness Scenario.X Scenario.m
             (snd (TakeSnapshot Scenario.X Scenario.m
                     {| tsq_Id := "w3"; tsq_ReturnImmediately := false |}
                     (Scenario.start Scenario.cluster)))
             {| gvq_Id := "snapshot-w3-1667347200000000000" |}).
    vm_compute. reflexivity.
  - apply (proj1 (proj2 (proj2 (volume_snapshot_readiness Scenario.X Scenario.m
             (Scenario.start Scenario.cluster) {| gvq_Id := "nope" |})))
             (status_Errorf NotFound "volume snapshot %s not found" [AStr "nope"])).
    + vm_compute. reflexivity.
    + reflexivity.
Defined.

(** ControlAdmission on the stopping workspace w4 with the unknown level 7. *)
Lemma phase_checked_before_level_witness :
  classified
    (fst (ControlAdmission Scenario.X Scenario.m {| caq_Id := "w4"; caq_Level := 7 |}
            (Scenario.start Scenario.cluster))) FailedPrecondition
  ∧ ¬ classified
        (fst (ControlAdmission Scenario.X Scenario.m {| caq_Id := "w4"; caq_Level := 7 |}
                (Scenario.start Scenario.cluster))) InvalidArgument.
Proof.
  refine (proj2 (proj1 (phase_checked_before_level Scenario.X Scenario.m
            (Scenario.start Scenario.cluster) {| caq_Id := "w4"; caq_Level := 7 |}
            Scenario.w4 (Scenario.objects Scenario.w4) (Scenario.status Scenario.w4) _)
            (or_introl _)) _).
  - apply scenario_exists. vm_compute. reflexivity.
  - vm_compute. reflexivity.
  - vm_compute. reflexivity.
Defined.

(** * Further properties of the handlers *)

(** Case analysis on a handler run: on the result of each helper it calls, in
    call order. *)
Ltac innermost x :=
  lazymatch x with
  | context [match ?y with _ => _ end] => innermost y
  | _ => destruct x eqn:?
  end.

Ltac branches :=
  repeat (simpl; match goal with
                 | |- context [match ?x with _ => _ end] => innermost x
                 end);
  simpl.

Ltac run_all h :=
  unfold h, mbind, M_bind, mret, M_ret, reading, acting, logged; simpl; branches.

Lemma own_status_here (codes : list Code) (c : Code) (format : string) (args : list fmtArg) :
  c ∈ codes → own_status codes (status_Errorf c format args).
Proof. intros Hc. by exists c, format, args. Qed.

Lemma own_status_code (codes : list Code) (e : error) :
  own_status codes e → status_Code e ∈ codes.
Proof. by intros (c & format & args & -> & Hc). Qed.

Section Failures.
Context {W Conn : Type} (X : Externals) (m : Manager W Conn).

Implicit Types (st : mstate W) (pod : Pod) (wso : workspaceObjects)
  (sts : WorkspaceStatus) (e : error).

(** X1.  When the pod lookup fails with anything but the cluster's not-found
    answer, TakeSnapshot, ControlAdmission and BackupWorkspace return an
    Internal error that carries the lookup's error as its operand; the lookup
    is their only call and the world is unchanged. *)
Theorem lookup_failure_is_internal st (workspaceID : string) e :
  findWorkspacePod m (world st) workspaceID = inr e →
  isKubernetesObjNotFoundError e = false →
  (∀ ri,
     TakeSnapshot X m {| tsq_Id := workspaceID; tsq_ReturnImmediately := ri |} st
     = (inr (status_Errorf Internal "cannot get workspace status: %q" [AErr e]),
        looked_up st workspaceID))
  ∧ (∀ level,
       ControlAdmission X m {| caq_Id := workspaceID; caq_Level := level |} st
       = (inr (status_Errorf Internal "cannot get workspace status: %q" [AErr e]),
          looked_up st workspaceID))
  ∧ BackupWorkspace m {| bwq_Id := workspaceID |} st
    = (inr (status_Errorf Internal "cannot get workspace pod: %q" [AErr e]),
       looked_up st workspaceID).
Proof.
  intros Hfind Hnf. split_and!; [intros ri|intros level|].
  - run_handler @TakeSnapshot. by rewrite Hfind, Hnf.
  - run_handler @ControlAdmission. by rewrite Hfind, Hnf.
  - run_handler @BackupWorkspace. by rewrite Hfind, Hnf.
Qed.

(** X2.  When the pod is found but its objects cannot be read, or no status
    can be derived from them, TakeSnapshot and ControlAdmission return an
    Internal error carrying that error; they have made the two reads and
    nothing else, whatever the request asks for. *)
Theorem unreadable_status_is_internal st (workspaceID : string) pod e :
  findWorkspacePod m (world st) workspaceID = inl pod →
  getWorkspaceObjects m (world st) pod = inr e
  ∨ (∃ wso, getWorkspaceObjects m (world st) pod = inl wso
            ∧ getWorkspaceStatus m wso = inr e) →
  (∀ ri,
     TakeSnapshot X m {| tsq_Id := workspaceID; tsq_ReturnImmediately := ri |} st
     = (inr (status_Errorf Internal "cannot get workspace status: %q" [AErr e]),
        resolved st workspaceID pod))
  ∧ (∀ level,
       ControlAdmission X m {| caq_Id := workspaceID; caq_Level := level |} st
       = (inr (status_Errorf Internal "cannot get workspace status: %q" [AErr e]),
          resolved st workspaceID pod)).
Proof.
  intros Hfind Hbad. unfold resolved. split; [intros ri|intros level].
  - run_handler @TakeSnapshot. rewrite Hfind; simpl.
    destruct Hbad as [Hobj | (wso & Hobj & Hsts)]; rewrite Hobj; simpl;
      rewrite ?Hsts; unfold logged; simpl; by rewrite <- ?app_assoc.
  - run_handler @ControlAdmission. rewrite Hfind; simpl.
    destruct Hbad as [Hobj | (wso & Hobj & Hsts)]; rewrite Hobj; simpl;
      rewrite ?Hsts; unfold logged; simpl; by rewrite <- ?app_assoc.
Qed.

(** X3.  Every error ControlAdmission returns is a status it built itself, of
    class NotFound, Internal, FailedPrecondition or InvalidArgument: the
    error of a helper never reaches the caller as it is. *)
Theorem ControlAdmission_error_classes st req e :
  fst (ControlAdmission X m req st) = inr e →
  own_status [NotFound; Internal; FailedPrecondition; InvalidArgument] e.
Proof.
  run_all @ControlAdmission; intros [= <-]; apply own_status_here; set_solver.
Qed.

(** X4.  Every error TakeSnapshot returns is either a status it built itself,
    of class NotFound, Internal, FailedPrecondition or Unavailable, or the
    error the daemon's TakeSnapshot RPC returned for this request, whatever
    its class. *)
Theorem TakeSnapshot_error_classes st req e :
  fst (TakeSnapshot X m req st) = inr e →
  own_status [NotFound; Internal; FailedPrecondition; Unavailable] e
  ∨ ∃ pod (sync : Conn) (w1 w2 : W),
      findWorkspacePod m (world st) (tsq_Id req) = inl pod
      ∧ connectToWorkspaceDaemon m (world st) (workspaceObjects_of_pod pod) = (inl sync, w1)
      ∧ sync_TakeSnapshot m w1 sync
          {| dtq_Id := tsq_Id req; dtq_ReturnImmediately := tsq_ReturnImmediately req |}
        = (inr e, w2).
Proof.
  run_all @TakeSnapshot; intros [= <-];
    first [ left; apply own_status_here; set_solver
          | right; do 4 eexists; split_and!; [done|eassumption|eassumption] ].
Qed.

(** X5.  Every error BackupWorkspace returns is either a status it built
    itself, of class NotFound, Internal or Unavailable, or the error the
    daemon's BackupWorkspace RPC returned.  It never returns
    FailedPrecondition of its own: it has no phase check. *)
Theorem BackupWorkspace_error_classes st req e :
  fst (BackupWorkspace m req st) = inr e →
  own_status [NotFound; Internal; Unavailable] e
  ∨ ∃ pod (sync : Conn) (w1 w2 : W),
      findWorkspacePod m (world st) (bwq_Id req) = inl pod
      ∧ connectToWorkspaceDaemon m (world st) (workspaceObjects_of_pod pod) = (inl sync, w1)
      ∧ sync_BackupWorkspace m w1 sync {| dbq_Id := bwq_Id req |} = (inr e, w2).
Proof.
  run_all @BackupWorkspace; intros [= <-];
    first [ left; apply own_status_here; set_solver
          | right; do 4 eexists; split_and!; [done|eassumption|eassumption] ].
Qed.

(** X6.  Every error GetVolumeSnapshot returns is a status it built itself,
    NotFound or Internal.  A failed readiness check is reported as NotFound
    exactly when status.Code of the check's own error, as the grpc module in
    use computes it, is NotFound; a check error of any other class
    (Canceled, Unavailable, ...) is reported as Internal. *)
Theorem GetVolumeSnapshot_error_classes st req e :
  fst (GetVolumeSnapshot X m req st) = inr e →
  own_status [NotFound; Internal] e
  ∧ ∃ e', checkWorkspaceVolumeSnapshotIsReady m (world st) (gvq_Id req) = inr e'
          ∧ (status_Code e = NotFound ↔ status_Code_at (grpc_unwraps X) e' = NotFound).
Proof.
  run_all @GetVolumeSnapshot; intros [= <-];
    (split; [apply own_status_here; set_solver|]); eexists; (split; [done|]).
  - by apply bool_decide_eq_true in Heqb.
  - apply bool_decide_eq_false in Heqb. by split.
Qed.

End Failures.

Ltac tidy :=
  repeat match goal with
         | H : bool_decide _ = true |- _ => apply bool_decide_eq_true in H
         | H : bool_decide _ = false |- _ => apply bool_decide_eq_false in H
         | H : negb _ = true |- _ => apply negb_true_iff in H
         | H : negb _ = false |- _ => apply negb_false_iff in H
         | H : _ || _ = false |- _ => apply orb_false_iff in H as [? ?]
         | H : ¬ (_ ≠ _) |- _ => apply dec_stable in H
         | H : ¬ is_Some _ |- _ => apply eq_None_not_Some in H
         end.

(** The calls of a run, read off the trace it left. *)
Ltac read_calls :=
  unfold calls_of; simpl; rewrite <- ?app_assoc; rewrite ?drop_app_length, ?drop_all; simpl.

Section Successes.
Context {W Conn : Type} (X : Externals) (m : Manager W Conn).

Implicit Types (st : mstate W) (pod : Pod) (wso : workspaceObjects)
  (sts : WorkspaceStatus) (e : error).

(** X7.  SetTimeout never looks at the cluster before it writes: its calls
    are at most one, the mark of the custom-timeout annotation on the ID of
    the request with the duration string exactly as it was sent.  It succeeds
    only if the duration parsed and the mark reported no error, and every
    error it returns is an xerrors value, never a status of its own. *)
Theorem SetTimeout_outcomes st req :
  (calls_of st (SetTimeout X m req st) = []
   ∨ calls_of st (SetTimeout X m req st)
     = [CallMarkWorkspace (stq_Id req)
          (addMark (customTimeoutAnnotation X) (stq_Duration req))])
  ∧ (∀ r, fst (SetTimeout X m req st) = inl r →
          ∃ (d : Z) (w' : W),
            time_ParseDuration X (stq_Duration req) = inl d
            ∧ markWorkspace m (world st) (stq_Id req)
                (addMark (customTimeoutAnnotation X) (stq_Duration req)) = (None, w')
            ∧ world (snd (SetTimeout X m req st)) = w')
  ∧ (∀ e, fst (SetTimeout X m req st) = inr e → is_xerror e = true).
Proof.
  split_and!.
  - run_all @SetTimeout; read_calls; auto.
  - intros r. run_all @SetTimeout; intros [=]; eauto.
  - intros e. by run_all @SetTimeout; intros [= <-].
Qed.

(** X8.  A success of ControlAdmission means that, in the state it was called
    in, the workspace existed in a phase other than STOPPING and STOPPED, the
    level was a recognised one, and the mark of the admission annotation with
    the lower-cased level name was made and reported no error; the world it
    leaves is the one that mark produced. *)
Theorem ControlAdmission_success st req r :
  fst (ControlAdmission X m req st) = inl r →
  ∃ pod wso sts (name : string) (w' : W),
    exists_with m st (caq_Id req) pod wso sts
    ∧ sts_Phase sts ≠ WorkspacePhase_STOPPING
    ∧ sts_Phase sts ≠ WorkspacePhase_STOPPED
    ∧ AdmissionLevel_name X !! caq_Level req = Some name
    ∧ markWorkspace m (world st) (caq_Id req)
        (addMark (WorkspaceAdmissionAnnotation X) (strings_ToLower name)) = (None, w')
    ∧ world (snd (ControlAdmission X m req st)) = w'.
Proof.
  unfold exists_with. run_all @ControlAdmission; intros [=]; tidy.
  do 5 eexists. split_and!; eauto.
Qed.

(** X9.  A success of TakeSnapshot means that the workspace existed and was
    RUNNING in the state it was called in, and that one of the two
    strategies went through: with the PVC feature label, the snapshot was
    requested without error under the name that is returned as URL, and, if
    the call was synchronous, the wait ended ready and without error;
    without the label, the daemon was reached, its RPC succeeded and the URL
    is the daemon's. *)
Theorem TakeSnapshot_success st req resp :
  fst (TakeSnapshot X m req st) = inl resp →
  ∃ pod wso sts,
    exists_with m st (tsq_Id req) pod wso sts
    ∧ ((pvc_running X wso sts
        ∧ tsr_Url resp = snapshot_name_at m st wso
        ∧ ∃ w1 : W,
            create_in X m st wso = (None, w1)
            ∧ (tsq_ReturnImmediately req = false →
               ∃ w2 : W,
                 waitForWorkspaceVolumeSnapshotReady m w1 (snapshot_name_at m st wso)
                 = ((true, None), w2)))
       ∨ (daemon_running X wso sts
          ∧ ∃ (sync : Conn) (w1 w2 : W) (r : DaemonTakeSnapshotResponse),
              connectToWorkspaceDaemon m (world st) (workspaceObjects_of_pod pod)
              = (inl sync, w1)
              ∧ sync_TakeSnapshot m w1 sync
                  {| dtq_Id := tsq_Id req;
                     dtq_ReturnImmediately := tsq_ReturnImmediately req |} = (inl r, w2)
              ∧ tsr_Url resp = dtr_Url r)).
Proof.
  unfold exists_with, pvc_running, daemon_running, create_in, snapshot_name_at,
    snapshot_class_of.
  run_all @TakeSnapshot; intros [= <-]; tidy; subst;
    do 3 eexists; (split; [eauto|]); simpl;
    repeat match goal with
           | H : ?l !! ?k = _ |- context [?l !! ?k] => rewrite H
           end;
    first [ left; split_and!; [done..|];
            eexists; (split; [eassumption|]);
            intros ?; first [ congruence | eexists; eassumption ]
          | right; split_and!; [done..|];
            do 4 eexists; split_and!; [eassumption|eassumption|done] ].
Qed.

(** X10.  A success of BackupWorkspace means that the pod existed, the
    daemon was reached and its BackupWorkspace RPC succeeded for the ID of
    the request; the URL is the daemon's.  Nothing about the phase of the
    workspace enters. *)
Theorem BackupWorkspace_success st req resp :
  fst (BackupWorkspace m req st) = inl resp →
  ∃ pod (sync : Conn) (w1 w2 : W) (r : DaemonBackupWorkspaceResponse),
    findWorkspacePod m (world st) (bwq_Id req) = inl pod
    ∧ connectToWorkspaceDaemon m (world st) (workspaceObjects_of_pod pod) = (inl sync, w1)
    ∧ sync_BackupWorkspace m w1 sync {| dbq_Id := bwq_Id req |} = (inl r, w2)
    ∧ bwr_Url resp = dbr_Url r
    ∧ world (snd (BackupWorkspace m req st)) = w2.
Proof.
  run_all @BackupWorkspace; intros [= <-]. do 5 eexists. split_and!; eauto.
Qed.

End Successes.

(** ** strings.ToLower and the decimal numeral *)

Lemma lower_ascii_not_upper (c : ascii) : is_upper (lower_ascii c) = false.
Proof. by destruct c as [[] [] [] [] [] [] [] []]. Qed.

Lemma lower_ascii_fixed (c : ascii) : is_upper c = false → lower_ascii c = c.
Proof. unfold is_upper, lower_ascii. by intros ->. Qed.

Lemma ToLower_no_upper (s : string) : no_upper (strings_ToLower s) = true.
Proof.
  induction s as [|c s IH]; [done|]. simpl. by rewrite lower_ascii_not_upper, IH.
Qed.

Lemma ToLower_length (s : string) :
  String.length (strings_ToLower s) = String.length s.
Proof. induction s as [|c s IH]; [done|]. simpl. by rewrite IH. Qed.

Lemma ToLower_fixed (s : string) : no_upper s = true → strings_ToLower s = s.
Proof.
  induction s as [|c s IH]; [done|]. simpl. intros [Hc Hs]%andb_true_iff.
  apply negb_true_iff in Hc. by rewrite lower_ascii_fixed, IH.
Qed.

Section Calls.
Context {W Conn : Type} (X : Externals) (m : Manager W Conn).

Implicit Types (st : mstate W) (pod : Pod) (wso : workspaceObjects)
  (sts : WorkspaceStatus) (e : error).

(** X11.  Which helper each handler can ever call.  TakeSnapshot never marks
    an annotation and never uses both strategies in one run: a run that
    requests or awaits a volume snapshot does not contact the daemon, and a
    run that contacts the daemon has not read the clock.  BackupWorkspace
    never marks, never touches volume snapshots and never reads the clock.
    ControlAdmission never contacts the daemon and never touches volume
    snapshots.  Every call of SetTimeout is a mark. *)
Theorem handlers_keep_to_their_calls st :
  (∀ req,
     existsb is_mark (calls_of st (TakeSnapshot X m req st)) = false
     ∧ (existsb is_volume_snapshot (calls_of st (TakeSnapshot X m req st)) = true →
        existsb is_daemon (calls_of st (TakeSnapshot X m req st)) = false)
     ∧ (existsb is_daemon (calls_of st (TakeSnapshot X m req st)) = true →
        existsb is_clock (calls_of st (TakeSnapshot X m req st)) = false))
  ∧ (∀ req,
       existsb is_mark (calls_of st (BackupWorkspace m req st)) = false
       ∧ existsb is_volume_snapshot (calls_of st (BackupWorkspace m req st)) = false
       ∧ existsb is_clock (calls_of st (BackupWorkspace m req st)) = false)
  ∧ (∀ req,
       existsb is_daemon (calls_of st (ControlAdmission X m req st)) = false
       ∧ existsb is_volume_snapshot (calls_of st (ControlAdmission X m req st)) = false
       ∧ existsb is_clock (calls_of st (ControlAdmission X m req st)) = false)
  ∧ (∀ req, forallb is_mark (calls_of st (SetTimeout X m req st)) = true).
Proof.
  split_and!; intros req.
  - run_all @TakeSnapshot; by read_calls.
  - run_all @BackupWorkspace; by read_calls.
  - run_all @ControlAdmission; by read_calls.
  - run_all @SetTimeout; by read_calls.
Qed.

(** X12.  TakeSnapshot waits for readiness only in a synchronous call whose
    snapshot request succeeded: if its run contains the wait, then
    ReturnImmediately was false, the workspace was a RUNNING one with the PVC
    feature label, and the snapshot had been requested without error.  So a
    call with ReturnImmediately = true never waits, and a failed request is
    never waited for. *)
Theorem wait_only_when_synchronous st req :
  existsb is_wait (calls_of st (TakeSnapshot X m req st)) = true →
  tsq_ReturnImmediately req = false
  ∧ ∃ pod wso sts (w1 : W),
      exists_with m st (tsq_Id req) pod wso sts
      ∧ pvc_running X wso sts
      ∧ create_in X m st wso = (None, w1)
      ∧ last (calls_of st (TakeSnapshot X m req st))
        = Some (CallWaitForWorkspaceVolumeSnapshotReady (snapshot_name_at m st wso)).
Proof.
  unfold exists_with, pvc_running, create_in, snapshot_name_at, snapshot_class_of.
  run_all @TakeSnapshot; read_calls; intros [=]; tidy; subst;
    (split; [done|]); do 4 eexists;
    (split; [split_and!; [reflexivity|eassumption|eassumption]|]);
    (split; [by split|]); simpl;
    repeat match goal with
           | H : ?l !! ?k = _ |- context [?l !! ?k] => rewrite H
           end;
    (split; [eassumption|done]).
Qed.

(** X13.  What TakeSnapshot asks of the cluster for a RUNNING workspace with
    the PVC feature label: after the two reads and the clock, a volume
    snapshot of the PVC named like the pod, under the generated name, for the
    workspace ID, with the pod's labels.  The snapshot class is the empty
    string when the pod has no workspace-class label or names a class that
    is not configured, and the class's PVC snapshot class otherwise. *)
Theorem snapshot_request_parameters st req pod wso sts :
  exists_with m st (tsq_Id req) pod wso sts →
  pvc_running X wso sts →
  ∃ (cls : string) (rest : list Call),
    calls_of st (TakeSnapshot X m req st)
    = ([CallFindWorkspacePod (tsq_Id req); CallGetWorkspaceObjects pod; CallTimeNow;
        CallCreateWorkspaceSnapshotFromPVC (Name (wso_Pod wso))
          (snapshot_name_at m st wso) cls (fst (WorkspaceID m wso))
          (Labels (wso_Pod wso))] ++ rest)%list
    ∧ (Labels (wso_Pod wso) !! workspaceClassLabel X = None → cls = EmptyString)
    ∧ (∀ c, Labels (wso_Pod wso) !! workspaceClassLabel X = Some c →
            WorkspaceClasses (Config m) !! c = None → cls = EmptyString)
    ∧ (∀ c wc, Labels (wso_Pod wso) !! workspaceClassLabel X = Some c →
               WorkspaceClasses (Config m) !! c = Some wc →
               cls = SnapshotClass (PVC wc)).
Proof.
  intros (Hfind & Hobj & Hsts) (Hph & Hlabel). unfold snapshot_name_at.
  unfold TakeSnapshot, mbind, M_bind, mret, M_ret, reading, acting, logged; simpl.
  rewrite Hfind; simpl. rewrite Hobj; simpl. rewrite Hsts, Hph.
  rewrite bool_decide_eq_false_2 by (intros H; by apply H).
  rewrite bool_decide_eq_true_2 by done.
  branches; read_calls; eexists _, _; (split; [reflexivity|]);
    split_and!; intros; simplify_eq; done.
Qed.

(** X14.  What the daemon is asked.  In the daemon-mediated path of
    TakeSnapshot the connection is opened for the pod that was looked up,
    and the RPC carries the ID and the ReturnImmediately flag of the request
    unchanged; BackupWorkspace does the same with the ID.  The world these
    handlers leave is the one the RPC left. *)
Theorem daemon_request_forwarded st :
  (∀ req pod wso sts (sync : Conn) (w1 : W),
     exists_with m st (tsq_Id req) pod wso sts →
     daemon_running X wso sts →
     connectToWorkspaceDaemon m (world st) (workspaceObjects_of_pod pod) = (inl sync, w1) →
     calls_of st (TakeSnapshot X m req st)
     = [CallFindWorkspacePod (tsq_Id req); CallGetWorkspaceObjects pod;
        CallConnectToWorkspaceDaemon (workspaceObjects_of_pod pod);
        CallDaemonTakeSnapshot
          {| dtq_Id := tsq_Id req; dtq_ReturnImmediately := tsq_ReturnImmediately req |}]
     ∧ world (snd (TakeSnapshot X m req st))
       = snd (sync_TakeSnapshot m w1 sync
                {| dtq_Id := tsq_Id req;
                   dtq_ReturnImmediately := tsq_ReturnImmediately req |}))
  ∧ (∀ req pod (sync : Conn) (w1 : W),
       findWorkspacePod m (world st) (bwq_Id req) = inl pod →
       connectToWorkspaceDaemon m (world st) (workspaceObjects_of_pod pod) = (inl sync, w1) →
       calls_of st (BackupWorkspace m req st)
       = [CallFindWorkspacePod (bwq_Id req);
          CallConnectToWorkspaceDaemon (workspaceObjects_of_pod pod);
          CallDaemonBackupWorkspace {| dbq_Id := bwq_Id req |}]
       ∧ world (snd (BackupWorkspace m req st))
         = snd (sync_BackupWorkspace m w1 sync {| dbq_Id := bwq_Id req |})).
Proof.
  split.
  - intros req pod wso sts sync w1 Hex Hd Hconn.
    destruct (sync_TakeSnapshot m w1 sync
                {| dtq_Id := tsq_Id req;
                   dtq_ReturnImmediately := tsq_ReturnImmediately req |})
      as [r w2] eqn:Hrpc.
    rewrite (TakeSnapshot_daemon_called X m st req pod wso sts sync w1 w2 r) by done.
    by rewrite calls_of_app.
  - intros req pod sync w1 Hfind Hconn.
    destruct (sync_BackupWorkspace m w1 sync {| dbq_Id := bwq_Id req |})
      as [r w2] eqn:Hrpc.
    rewrite (BackupWorkspace_called m st req pod sync w1 w2 r) by done.
    by rewrite calls_of_app.
Qed.

(** X15.  ControlAdmission changes the cluster only through its one mark.
    Whenever it returns an error of a class other than Internal, and
    whenever its run contains no mark, nothing was written.  It marks at
    most once, and a mark it makes is on the ID of the request, of the
    admission annotation, with the lower-cased name of the requested level:
    a value without ASCII capitals, as long as the name. *)
Theorem ControlAdmission_writes_only_the_mark st req :
  (∀ c, classified (fst (ControlAdmission X m req st)) c → c ≠ Internal →
        untouched st (ControlAdmission X m req st))
  ∧ (existsb is_mark (calls_of st (ControlAdmission X m req st)) = false →
     untouched st (ControlAdmission X m req st))
  ∧ (List.length (filter (λ c, is_mark c = true)
                    (calls_of st (ControlAdmission X m req st))) ≤ 1)%nat
  ∧ (∀ (id : string) (a : annotation),
       CallMarkWorkspace id a ∈ calls_of st (ControlAdmission X m req st) →
       id = caq_Id req
       ∧ ∃ name value,
           AdmissionLevel_name X !! caq_Level req = Some name
           ∧ a = addMark (WorkspaceAdmissionAnnotation X) value
           ∧ value = strings_ToLower name
           ∧ no_upper value = true
           ∧ String.length value = String.length name).
Proof.
  split_and!.
  - intros c. unfold classified, untouched.
    run_all @ControlAdmission; read_calls; intros (e' & [= <-] & Hc) Hne;
      simpl in *; by subst.
  - unfold untouched. run_all @ControlAdmission; read_calls; by intros.
  - run_all @ControlAdmission; read_calls; repeat (rewrite ?filter_cons, ?filter_nil; simpl);
      repeat case_decide; simpl; lia.
  - intros id a.
    run_all @ControlAdmission; read_calls;
      rewrite ?elem_of_cons, ?elem_of_nil; intros Hin;
      repeat (destruct Hin as [Hin|Hin]); simplify_eq; try done.
    all: split; [done|]; eexists _, _;
      split_and!; [reflexivity|reflexivity|reflexivity|
                   apply ToLower_no_upper|apply ToLower_length].
Qed.

End Calls.

(** ** Snapshot names of different workspaces *)

Lemma pretty_N_char_no_dash (x : N) : is_dash (pretty_N_char x) = false.
Proof. unfold pretty_N_char. by repeat case_match. Qed.

Lemma pretty_N_go_dash_free (x : N) (s : string) :
  dash_free s = true → dash_free (pretty_N_go x s) = true.
Proof.
  revert s. induction (N.lt_wf_0 x) as [x _ IH]; intros s Hs.
  assert (x = 0 ∨ 0 < x)%N as [->|Hx] by lia.
  - by rewrite pretty_N_go_0.
  - rewrite pretty_N_go_step by done. apply IH.
    + by apply N.div_lt.
    + simpl. by rewrite pretty_N_char_no_dash.
Qed.

Lemma pretty_Z_dash_free (z : Z) : 0 ≤ z → dash_free (pretty z) = true.
Proof.
  intros Hz. destruct z as [|p|p]; [done| |lia].
  unfold pretty, pretty_Z, pretty, pretty_positive, pretty, pretty_N.
  case_decide; [done|]. by apply pretty_N_go_dash_free.
Qed.

Lemma dash_free_app_dash (s d : string) :
  dash_free (s +:+ String "-"%char d) = false.
Proof. induction s as [|c s IH]; [done|]. simpl. rewrite IH. by destruct (is_dash c). Qed.

(** The last minus sign of a name separates the ID from the numeral. *)
Lemma split_at_last_dash (s1 s2 d1 d2 : string) :
  dash_free d1 = true → dash_free d2 = true →
  s1 +:+ "-" +:+ d1 = s2 +:+ "-" +:+ d2 → s1 = s2 ∧ d1 = d2.
Proof.
  intros Hd1 Hd2. revert s2. induction s1 as [|c s1 IH]; intros [|c' s2];
    unfold String.append; fold String.append.
  - by intros [= ->].
  - intros [= <- ->]. by rewrite dash_free_app_dash in Hd1.
  - intros [= -> <-]. by rewrite dash_free_app_dash in Hd2.
  - intros [= -> H]. by apply IH in H as [-> ->].
Qed.

(** X16.  Read at non-negative clock values (any time since 1970), the
    snapshot names of TakeSnapshot determine both the workspace ID and the
    timestamp: snapshots of two different workspaces never share a name, even
    when the IDs themselves contain minus signs, and neither do snapshots of
    one workspace taken at different clock readings. *)
Theorem snapshot_names_across_workspaces (id1 id2 : string) (t1 t2 : Z) :
  0 ≤ t1 → 0 ≤ t2 →
  Sprintf_snapshot id1 t1 = Sprintf_snapshot id2 t2 →
  id1 = id2 ∧ t1 = t2.
Proof.
  intros Ht1 Ht2. unfold Sprintf_snapshot. intros H.
  apply (inj (String.app _)) in H.
  apply split_at_last_dash in H as [-> H]; [|by apply pretty_Z_dash_free..].
  split; [done|]. by apply (inj pretty).
Qed.

(** Before 1970 the numeral starts with a minus sign and two IDs can share a
    name. *)
Example snapshot_names_negative_clock :
  Sprintf_snapshot "a" (-2) = Sprintf_snapshot "a-" 2.
Proof. by vm_compute. Qed.

Section Frames.
Context {W Conn : Type} (X : Externals).

(** X17.  SetTimeout and BackupWorkspace have no phase gate.  The outcome of
    SetTimeout is the same under any two managers whose mark operation is
    the same, whatever their pod lookup and status derivation do; the
    outcome of BackupWorkspace is the same under any two managers with the
    same pod lookup and daemon client, whatever status they derive. *)
Theorem no_phase_gate (m1 m2 : Manager W Conn) (st : mstate W) :
  (markWorkspace m1 = markWorkspace m2 →
   ∀ req, SetTimeout X m1 req st = SetTimeout X m2 req st)
  ∧ (findWorkspacePod m1 = findWorkspacePod m2 →
     connectToWorkspaceDaemon m1 = connectToWorkspaceDaemon m2 →
     sync_BackupWorkspace m1 = sync_BackupWorkspace m2 →
     ∀ req, BackupWorkspace m1 req st = BackupWorkspace m2 req st).
Proof.
  split.
  - intros Hmark req. unfold SetTimeout. by rewrite Hmark.
  - intros Hfind Hconn Hrpc req. unfold BackupWorkspace. by rewrite Hfind, Hconn, Hrpc.
Qed.

End Frames.

(** * The toolbox's client of the public API *)

Lemma toolbox_coherent_init (currentAccount : option Toolbox.GitpodAccount) :
  Toolbox.coherent (Toolbox.init currentAccount).
Proof. destruct currentAccount as [acc|]; [right; by exists acc | by left]. Qed.

Lemma toolbox_coherent_on (ev : Toolbox.AuthEvent) (this : Toolbox.GitpodPublicApiManager) :
  Toolbox.coherent this → Toolbox.coherent (Toolbox.on ev this).
Proof.
  intros Hthis. destruct ev as [[acc|]|]; simpl.
  - right. by exists acc.
  - done.
  - by left.
Qed.

Lemma toolbox_coherent_after (currentAccount : option Toolbox.GitpodAccount)
    (evs : list Toolbox.AuthEvent) :
  Toolbox.coherent (Toolbox.after currentAccount evs).
Proof.
  unfold Toolbox.after. generalize (toolbox_coherent_init currentAccount).
  generalize (Toolbox.init currentAccount). induction evs as [|ev evs IH]; intros this Hthis.
  - done.
  - simpl. apply IH. by apply toolbox_coherent_on.
Qed.

(** X18.  The authorization interceptor, on stream and unary requests alike,
    sets the header "Authorization" to the single value "Bearer <token>",
    replacing whatever values the request had under that exact name, keeps
    every other header (names are compared exactly, so a differently spelled
    "authorization" stays) and the rest of the request, and applying it
    again, with any earlier token, leaves only the last token. *)
Theorem authorization_header_replaced {R : Type} (this : Toolbox.AuthorizationInterceptor)
    (it : Toolbox.HTTPRequest R) :
  Toolbox.headers (Toolbox.streamFunction this it) !! "Authorization"
  = Some ["Bearer " +:+ Toolbox.token this]
  ∧ (∀ name, name ≠ "Authorization" →
             Toolbox.headers (Toolbox.streamFunction this it) !! name
             = Toolbox.headers it !! name)
  ∧ Toolbox.rest (Toolbox.streamFunction this it) = Toolbox.rest it
  ∧ Toolbox.unaryFunction this it = Toolbox.streamFunction this it
  ∧ (∀ earlier,
       Toolbox.streamFunction this (Toolbox.streamFunction earlier it)
       = Toolbox.streamFunction this it).
Proof.
  unfold Toolbox.streamFunction, Toolbox.unaryFunction, Toolbox.putAll; simpl.
  rewrite !(right_id_L ∅ (∪)). split_and!.
  - by rewrite lookup_insert_eq.
  - intros name Hname. by rewrite lookup_insert_ne.
  - done.
  - done.
  - intros earlier. by rewrite !(right_id_L ∅ (∪)), insert_insert_eq.
Qed.

(** X19.  At any moment after construction, whatever logins and logouts were
    announced, the manager holds either no client or the clients of one
    account.  So either every method throws IllegalStateException("No
    client") before sending anything, or every method passes its client
    check with one and the same client: the one created for the host and
    the credentials of the stored account, talking to "<host>/public-api"
    through one interceptor that carries those credentials. *)
Theorem clients_all_or_none (currentAccount : option Toolbox.GitpodAccount)
    (evs : list Toolbox.AuthEvent) :
  (∀ method,
     Toolbox.precheck method (Toolbox.after currentAccount evs)
     = inl (Toolbox.IllegalStateException "No client"))
  ∨ ∃ acc,
      Toolbox.account (Toolbox.after currentAccount evs) = Some acc
      ∧ ∀ method,
          Toolbox.precheck method (Toolbox.after currentAccount evs)
          ≠ inl (Toolbox.IllegalStateException "No client")
          ∧ ∀ client org,
              Toolbox.precheck method (Toolbox.after currentAccount evs) = inr (client, org) →
              client = Toolbox.createClient (Toolbox.getHost acc) (Toolbox.getCredentials acc)
              ∧ Toolbox.host client = Toolbox.getHost acc +:+ "/public-api"
              ∧ Toolbox.interceptors client
                = [{| Toolbox.token := Toolbox.getCredentials acc |}].
Proof.
  destruct (toolbox_coherent_after currentAccount evs) as [-> | [acc ->]].
  - left. by intros [].
  - right. exists acc. split; [done|]. intros method. split.
    + destruct method; simpl; unfold Toolbox.orgId; simpl;
        by destruct (Toolbox.organizationId acc).
    + intros client org. destruct method; simpl; unfold Toolbox.orgId; simpl;
        destruct (Toolbox.organizationId acc); by intros [= <- <-].
Qed.

(** X20.  A method throws IllegalStateException("Organization not selected")
    only if it is createAndStartWorkspace or listWorkspaces and the manager
    holds the clients of an account that has no organization: a missing
    login is always reported as "No client" first.  With an organization
    selected these two methods send the organization's ID. *)
Theorem organization_error_needs_login (currentAccount : option Toolbox.GitpodAccount)
    (evs : list Toolbox.AuthEvent) (method : Toolbox.ApiMethod) :
  (Toolbox.precheck method (Toolbox.after currentAccount evs)
   = inl (Toolbox.IllegalStateException "Organization not selected") →
   (method = Toolbox.createAndStartWorkspace ∨ method = Toolbox.listWorkspaces)
   ∧ ∃ acc,
       Toolbox.account (Toolbox.after currentAccount evs) = Some acc
       ∧ Toolbox.organizationId acc = None
       ∧ Toolbox.workspaceApi (Toolbox.after currentAccount evs)
         = Some (Toolbox.createClient (Toolbox.getHost acc) (Toolbox.getCredentials acc)))
  ∧ (∀ client org,
       Toolbox.precheck method (Toolbox.after currentAccount evs) = inr (client, Some org) →
       (method = Toolbox.createAndStartWorkspace ∨ method = Toolbox.listWorkspaces)
       ∧ ∃ acc,
           Toolbox.account (Toolbox.after currentAccount evs) = Some acc
           ∧ Toolbox.organizationId acc = Some org).
Proof.
  destruct (toolbox_coherent_after currentAccount evs) as [-> | [acc ->]]; split.
  - by destruct method.
  - intros client org. by destruct method.
  - destruct method; simpl; unfold Toolbox.orgId; simpl;
      destruct (Toolbox.organizationId acc) eqn:Horg; intros [=];
      (split; [auto|]); by exists acc.
  - intros client org. destruct method; simpl; unfold Toolbox.orgId; simpl;
      destruct (Toolbox.organizationId acc) eqn:Horg; intros [= <- <-];
      (split; [auto|]); by exists acc.
Qed.

(** * The further properties on the four-workspace cluster *)

(** BackupWorkspace(w1) while the cluster API answers lookups with a server
    error. *)
Lemma lookup_failure_is_internal_witness :
  BackupWorkspace Outage.api_down {| bwq_Id := "w1" |} (Scenario.start Scenario.cluster)
  = (inr (status_Errorf Internal "cannot get workspace pod: %q" [AErr Outage.api_error]),
     looked_up (Scenario.start Scenario.cluster) "w1").
Proof.
  refine (proj2 (proj2 (lookup_failure_is_internal Scenario.X Outage.api_down
            (Scenario.start Scenario.cluster) "w1" Outage.api_error _ _))).
  - reflexivity.
  - reflexivity.
Defined.

(** TakeSnapshot(w1) while no status can be derived. *)
Lemma unreadable_status_is_internal_witness :
  TakeSnapshot Scenario.X Outage.status_underivable
    {| tsq_Id := "w1"; tsq_ReturnImmediately := true |} (Scenario.start Scenario.cluster)
  = (inr (status_Errorf Internal "cannot get workspace status: %q"
            [AErr Outage.status_error]),
     resolved (Scenario.start Scenario.cluster) "w1" Scenario.w1).
Proof.
  refine (proj1 (unreadable_status_is_internal Scenario.X Outage.status_underivable
            (Scenario.start Scenario.cluster) "w1" Scenario.w1 Outage.status_error _ _) true).
  - vm_compute. reflexivity.
  - right. exists (Scenario.objects Scenario.w1). split; reflexivity.
Defined.

(** ControlAdmission on the stopping workspace w4. *)
Lemma ControlAdmission_error_classes_witness :
  own_status [NotFound; Internal; FailedPrecondition; InvalidArgument]
    (status_Errorf FailedPrecondition "cannot control admission of stopping workspaces" []).
Proof.
  apply (ControlAdmission_error_classes Scenario.X Scenario.m
           (Scenario.start Scenario.cluster) {| caq_Id := "w4"; caq_Level := 1 |}).
  vm_compute. reflexivity.
Defined.

(** TakeSnapshot(w1) through a daemon that refuses: the one error that is
    not the manager's own. *)
Lemma TakeSnapshot_error_classes_witness :
  own_status [NotFound; Internal; FailedPrecondition; Unavailable] Scenario.daemon_refusal
  ∨ ∃ pod (sync : string) (w1 w2 : Sim.world),
      findWorkspacePod Scenario.m Scenario.cluster_daemon_fails "w1" = inl pod
      ∧ connectToWorkspaceDaemon Scenario.m Scenario.cluster_daemon_fails
          (workspaceObjects_of_pod pod) = (inl sync, w1)
      ∧ sync_TakeSnapshot Scenario.m w1 sync
          {| dtq_Id := "w1"; dtq_ReturnImmediately := true |}
        = (inr Scenario.daemon_refusal, w2).
Proof.
  apply (TakeSnapshot_error_classes Scenario.X Scenario.m
           (Scenario.start Scenario.cluster_daemon_fails)
           {| tsq_Id := "w1"; tsq_ReturnImmediately := true |}).
  vm_compute. reflexivity.
Defined.

(** BackupWorkspace(w1) with the daemon unreachable. *)
Lemma BackupWorkspace_error_classes_witness :
  own_status [NotFound; Internal; Unavailable]
    (status_Errorf Unavailable "cannot connect to workspace daemon: %q"
       [AErr (PlainError "dial: connection refused")])
  ∨ ∃ pod (sync : string) (w1 w2 : Sim.world),
      findWorkspacePod Scenario.m Scenario.cluster_no_daemon "w1" = inl pod
      ∧ connectToWorkspaceDaemon Scenario.m Scenario.cluster_no_daemon
          (workspaceObjects_of_pod pod) = (inl sync, w1)
      ∧ sync_BackupWorkspace Scenario.m w1 sync {| dbq_Id := "w1" |}
        = (inr (status_Errorf Unavailable "cannot connect to workspace daemon: %q"
                  [AErr (PlainError "dial: connection refused")]), w2).
Proof.
  apply (BackupWorkspace_error_classes Scenario.m
           (Scenario.start Scenario.cluster_no_daemon) {| bwq_Id := "w1" |}).
  vm_compute. reflexivity.
Defined.

(** GetVolumeSnapshot while the readiness check is cancelled: reported as
    Internal. *)
Lemma GetVolumeSnapshot_error_classes_witness :
  own_status [NotFound; Internal]
    (status_Errorf Internal "cannot check if volume snapshot is ready: %q"
       [AErr (status_Errorf Canceled "context canceled" [])]).
Proof.
  apply (GetVolumeSnapshot_error_classes Scenario.X Outage.check_cancelled
           (Scenario.start Scenario.cluster) {| gvq_Id := "snapshot-old" |}).
  vm_compute. reflexivity.
Defined.

(** SetTimeout(w1, "30m"). *)
Lemma SetTimeout_outcomes_witness :
  ∃ (d : Z) (w' : Sim.world),
    time_ParseDuration Scenario.X "30m" = inl d
    ∧ markWorkspace Scenario.m Scenario.cluster "w1"
        (addMark "gitpod/customTimeout" "30m") = (None, w')
    ∧ world (snd (SetTimeout Scenario.X Scenario.m
                    {| stq_Id := "w1"; stq_Duration := "30m" |}
                    (Scenario.start Scenario.cluster))) = w'.
Proof.
  apply (proj1 (proj2 (SetTimeout_outcomes Scenario.X Scenario.m
           (Scenario.start Scenario.cluster)
           {| stq_Id := "w1"; stq_Duration := "30m" |})) Build_SetTimeoutResponse).
  vm_compute. reflexivity.
Defined.

(** ControlAdmission(w1, ADMIT_OWNER_ONLY). *)
Lemma ControlAdmission_success_witness :
  ∃ pod wso sts (name : string) (w' : Sim.world),
    exists_with Scenario.m (Scenario.start Scenario.cluster) "w1" pod wso sts
    ∧ sts_Phase sts ≠ WorkspacePhase_STOPPING
    ∧ sts_Phase sts ≠ WorkspacePhase_STOPPED
    ∧ AdmissionLevel_name Scenario.X !! 0 = Some name
    ∧ markWorkspace Scenario.m Scenario.cluster "w1"
        (addMark "gitpod/admission" (strings_ToLower name)) = (None, w')
    ∧ world (snd (ControlAdmission Scenario.X Scenario.m
                    {| caq_Id := "w1"; caq_Level := 0 |}
                    (Scenario.start Scenario.cluster))) = w'.
Proof.
  apply (ControlAdmission_success Scenario.X Scenario.m (Scenario.start Scenario.cluster)
           {| caq_Id := "w1"; caq_Level := 0 |} Build_ControlAdmissionResponse).
  vm_compute. reflexivity.
Defined.

(** A synchronous TakeSnapshot(w3) with the snapshotter running. *)
Lemma TakeSnapshot_success_witness :
  ∃ pod wso sts,
    exists_with Scenario.m (Scenario.start Scenario.cluster) "w3" pod wso sts
    ∧ sts_Phase sts = WorkspacePhase_RUNNING.
Proof.
  destruct (TakeSnapshot_success Scenario.X Scenario.m (Scenario.start Scenario.cluster)
              {| tsq_Id := "w3"; tsq_ReturnImmediately := false |}
              {| tsr_Url := "snapshot-w3-1667347200000000000" |})
    as (pod & wso & sts & Hex & [((Hph & _) & _) | ((Hph & _) & _)]).
  - vm_compute. reflexivity.
  - exists pod, wso, sts. split; [exact Hex | exact Hph].
  - exists pod, wso, sts. split; [exact Hex | exact Hph].
Defined.

(** BackupWorkspace(w4): the workspace is stopping, the backup goes through. *)
Lemma BackupWorkspace_success_witness :
  sts_Phase (Scenario.status Scenario.w4) = WorkspacePhase_STOPPING
  ∧ ∃ pod (sync : string) (w1 w2 : Sim.world) (r : DaemonBackupWorkspaceResponse),
      findWorkspacePod Scenario.m Scenario.cluster "w4" = inl pod
      ∧ connectToWorkspaceDaemon Scenario.m Scenario.cluster
          (workspaceObjects_of_pod pod) = (inl sync, w1)
      ∧ sync_BackupWorkspace Scenario.m w1 sync {| dbq_Id := "w4" |} = (inl r, w2)
      ∧ "backup://w1/1" = dbr_Url r
      ∧ world (snd (BackupWorkspace Scenario.m {| bwq_Id := "w4" |}
                      (Scenario.start Scenario.cluster))) = w2.
Proof.
  split; [vm_compute; reflexivity|].
  apply (BackupWorkspace_success Scenario.m (Scenario.start Scenario.cluster)
           {| bwq_Id := "w4" |} {| bwr_Url := "backup://w1/1" |}).
  vm_compute. reflexivity.
Defined.

(** The calls of TakeSnapshot(w3) and of SetTimeout(w1, "30m"). *)
Lemma handlers_keep_to_their_calls_witness :
  existsb is_daemon
    (calls_of (Scenario.start Scenario.cluster)
       (TakeSnapshot Scenario.X Scenario.m
          {| tsq_Id := "w3"; tsq_ReturnImmediately := true |}
          (Scenario.start Scenario.cluster))) = false
  ∧ forallb is_mark
      (calls_of (Scenario.start Scenario.cluster)
         (SetTimeout Scenario.X Scenario.m {| stq_Id := "w1"; stq_Duration := "30m" |}
            (Scenario.start Scenario.cluster))) = true.
Proof.
  destruct (handlers_keep_to_their_calls Scenario.X Scenario.m
              (Scenario.start Scenario.cluster)) as (Htake & _ & _ & Hset).
  split.
  - apply (proj1 (proj2 (Htake {| tsq_Id := "w3"; tsq_ReturnImmediately := true |}))).
    vm_compute. reflexivity.
  - apply Hset.
Defined.

(** The synchronous TakeSnapshot(w3) waits. *)
Lemma wait_only_when_synchronous_witness :
  tsq_ReturnImmediately {| tsq_Id := "w3"; tsq_ReturnImmediately := false |} = false
  ∧ ∃ pod wso sts (w1 : Sim.world),
      exists_with Scenario.m (Scenario.start Scenario.cluster) "w3" pod wso sts
      ∧ pvc_running Scenario.X wso sts
      ∧ create_in Scenario.X Scenario.m (Scenario.start Scenario.cluster) wso = (None, w1)
      ∧ last (calls_of (Scenario.start Scenario.cluster)
                (TakeSnapshot Scenario.X Scenario.m
                   {| tsq_Id := "w3"; tsq_ReturnImmediately := false |}
                   (Scenario.start Scenario.cluster)))
        = Some (CallWaitForWorkspaceVolumeSnapshotReady
                  (snapshot_name_at Scenario.m (Scenario.start Scenario.cluster) wso)).
Proof.
  apply (wait_only_when_synchronous Scenario.X Scenario.m (Scenario.start Scenario.cluster)
           {| tsq_Id := "w3"; tsq_ReturnImmediately := false |}).
  vm_compute. reflexivity.
Defined.

(** TakeSnapshot(w3): the snapshot class of the configured class "default". *)
Lemma snapshot_request_parameters_witness :
  ∃ (cls : string) (rest : list Call),
    calls_of (Scenario.start Scenario.cluster)
      (TakeSnapshot Scenario.X Scenario.m
         {| tsq_Id := "w3"; tsq_ReturnImmediately := true |}
         (Scenario.start Scenario.cluster))
    = ([CallFindWorkspacePod "w3"; CallGetWorkspaceObjects Scenario.w3; CallTimeNow;
        CallCreateWorkspaceSnapshotFromPVC "ws-w3" "snapshot-w3-1667347200000000000"
          cls "w3" (Labels Scenario.w3)] ++ rest)%list
    ∧ cls = "csi-gce-pd".
Proof.
  destruct (snapshot_request_parameters Scenario.X Scenario.m
              (Scenario.start Scenario.cluster)
              {| tsq_Id := "w3"; tsq_ReturnImmediately := true |}
              Scenario.w3 (Scenario.objects Scenario.w3) (Scenario.status Scenario.w3))
    as (cls & rest & Hcalls & _ & _ & Hcls).
  - apply scenario_exists. vm_compute. reflexivity.
  - exact scenario_pvc_running.
  - exists cls, rest. split.
    + exact Hcalls.
    + apply (Hcls "default" {| PVC := {| SnapshotClass := "csi-gce-pd" |} |}).
      * vm_compute. reflexivity.
      * vm_compute. reflexivity.
Defined.

(** TakeSnapshot(w1): what the daemon is asked. *)
Lemma daemon_request_forwarded_witness :
  calls_of (Scenario.start Scenario.cluster)
    (TakeSnapshot Scenario.X Scenario.m
       {| tsq_Id := "w1"; tsq_ReturnImmediately := true |}
       (Scenario.start Scenario.cluster))
  = [CallFindWorkspacePod "w1"; CallGetWorkspaceObjects Scenario.w1;
     CallConnectToWorkspaceDaemon (workspaceObjects_of_pod Scenario.w1);
     CallDaemonTakeSnapshot {| dtq_Id := "w1"; dtq_ReturnImmediately := true |}].
Proof.
  refine (proj1 (proj1 (daemon_request_forwarded Scenario.X Scenario.m
            (Scenario.start Scenario.cluster))
            {| tsq_Id := "w1"; tsq_ReturnImmediately := true |}
            Scenario.w1 (Scenario.objects Scenario.w1) (Scenario.status Scenario.w1)
            "ws-w1" Scenario.cluster _ scenario_daemon_running _)).
  - apply scenario_exists. vm_compute. reflexivity.
  - vm_compute. reflexivity.
Defined.

(** ControlAdmission on the stopping workspace w4 wrote nothing. *)
Lemma ControlAdmission_writes_only_the_mark_witness :
  untouched (Scenario.start Scenario.cluster)
    (ControlAdmission Scenario.X Scenario.m {| caq_Id := "w4"; caq_Level := 1 |}
       (Scenario.start Scenario.cluster)).
Proof.
  apply (proj1 (ControlAdmission_writes_only_the_mark Scenario.X Scenario.m
           (Scenario.start Scenario.cluster) {| caq_Id := "w4"; caq_Level := 1 |})
           FailedPrecondition).
  - eexists. split; [vm_compute; reflexivity | reflexivity].
  - discriminate.
Defined.

(** Two workspaces whose IDs differ by a trailing "-1". *)
Lemma snapshot_names_across_workspaces_witness :
  Sprintf_snapshot "ws-1" 1667347200000000000 = Sprintf_snapshot "ws-1" 1667347200000000000
  ∧ ("ws-1" = "ws-1" ∧ 1667347200000000000 = 1667347200000000000).
Proof.
  split; [reflexivity|].
  apply (snapshot_names_across_workspaces "ws-1" "ws-1"
           1667347200000000000 1667347200000000000).
  - vm_compute. discriminate.
  - vm_compute. discriminate.
  - reflexivity.
Defined.

(** SetTimeout gives the same outcome whether or not a status can be derived. *)
Lemma no_phase_gate_witness :
  SetTimeout Scenario.X Scenario.m {| stq_Id := "w4"; stq_Duration := "30m" |}
    (Scenario.start Scenario.cluster)
  = SetTimeout Scenario.X Outage.status_underivable
      {| stq_Id := "w4"; stq_Duration := "30m" |} (Scenario.start Scenario.cluster).
Proof.
  apply (proj1 (no_phase_gate Scenario.X Scenario.m Outage.status_underivable
                  (Scenario.start Scenario.cluster))).
  reflexivity.
Defined.

(** A request that already carries two spellings of the header. *)
Lemma authorization_header_replaced_witness :
  Toolbox.headers
    (Toolbox.streamFunction {| Toolbox.token := "s3cret" |}
       {| Toolbox.headers := {[ "Authorization" := ["Basic abc"; "Bearer old"];
                                "authorization" := ["Bearer other"] ]};
          Toolbox.rest := "POST /public-api/gitpod.v1.WorkspaceService/ListWorkspaces" |})
  !! "authorization"
  = Some ["Bearer other"].
Proof.
  rewrite (proj1 (proj2 (authorization_header_replaced {| Toolbox.token := "s3cret" |} _))
             "authorization").
  - vm_compute. reflexivity.
  - discriminate.
Defined.

(** Bob, who has no organization, logs in after Alice logged out. *)
Lemma organization_error_needs_login_witness :
  (Toolbox.listWorkspaces = Toolbox.createAndStartWorkspace
   ∨ Toolbox.listWorkspaces = Toolbox.listWorkspaces)
  ∧ ∃ acc,
      Toolbox.account
        (Toolbox.after (Some Toolbox.alice)
           [Toolbox.LoggedOut; Toolbox.LoggedIn (Some Toolbox.bob)]) = Some acc
      ∧ Toolbox.organizationId acc = None
      ∧ Toolbox.workspaceApi
          (Toolbox.after (Some Toolbox.alice)
             [Toolbox.LoggedOut; Toolbox.LoggedIn (Some Toolbox.bob)])
        = Some (Toolbox.createClient (Toolbox.getHost acc) (Toolbox.getCredentials acc)).
Proof.
  apply (proj1 (organization_error_needs_login (Some Toolbox.alice)
                  [Toolbox.LoggedOut; Toolbox.LoggedIn (Some Toolbox.bob)]
                  Toolbox.listWorkspaces)).
  vm_compute. reflexivity.
Defined.

(** * The volume-snapshot strategy, step by step *)

Section Strategy.
Context {W Conn : Type} (X : Externals) (m : Manager W Conn).

Implicit Types (st : mstate W) (pod : Pod) (wso : workspaceObjects)
  (sts : WorkspaceStatus) (e : error).

(** X21.  With ReturnImmediately = true, TakeSnapshot on a RUNNING workspace
    with the PVC feature label answers as soon as the snapshot is requested:
    if the request reported no error it returns the snapshot name as URL
    without asking whether the snapshot is ready, and the world it leaves is
    the one the request left. *)
Theorem immediate_snapshot_not_awaited st req pod wso sts (w1 : W) :
  exists_with m st (tsq_Id req) pod wso sts →
  pvc_running X wso sts →
  tsq_ReturnImmediately req = true →
  create_in X m st wso = (None, w1) →
  fst (TakeSnapshot X m req st) = inl {| tsr_Url := snapshot_name_at m st wso |}
  ∧ world (snd (TakeSnapshot X m req st)) = w1
  ∧ existsb is_wait (calls_of st (TakeSnapshot X m req st)) = false
  ∧ last (calls_of st (TakeSnapshot X m req st)) = Some (create_call X m st wso).
Proof.
  intros Hex Hpvc Hri Hcreate.
  rewrite (TakeSnapshot_pvc_immediately X m st req pod wso sts w1) by done.
  by rewrite calls_of_app.
Qed.

(** X22.  ControlAdmission is open to every phase but STOPPING and STOPPED,
    the phases UNKNOWN, PENDING, INITIALIZING and INTERRUPTED included: on an
    existing workspace in such a phase, with a recognised level and a mark
    that reports no error, it succeeds and leaves the world the mark left. *)
Theorem admission_open_outside_stopping st req pod wso sts (name : string) (w' : W) :
  exists_with m st (caq_Id req) pod wso sts →
  sts_Phase sts ≠ WorkspacePhase_STOPPING →
  sts_Phase sts ≠ WorkspacePhase_STOPPED →
  AdmissionLevel_name X !! caq_Level req = Some name →
  markWorkspace m (world st) (caq_Id req)
    (addMark (WorkspaceAdmissionAnnotation X) (strings_ToLower name)) = (None, w') →
  ControlAdmission X m req st
  = (inl Build_ControlAdmissionResponse,
     {| world := w';
        trace := trace st
                 ++ [CallFindWorkspacePod (caq_Id req); CallGetWorkspaceObjects pod;
                     CallMarkWorkspace (caq_Id req)
                       (addMark (WorkspaceAdmissionAnnotation X) (strings_ToLower name))] |}).
Proof.
  intros Hex Hp1 Hp2 Hlvl Hmark.
  rewrite (ControlAdmission_marked X m st req pod wso sts name None w'); [done..| |done|done].
  unfold stopping_or_stopped. by rewrite !bool_decide_eq_false_2.
Qed.

(** X23.  TakeSnapshot does not undo a snapshot request.  In a synchronous
    call on a RUNNING workspace with the PVC feature label, once the
    snapshot was requested, the run ends with the wait whatever the wait
    returns: also when the call then fails because the snapshot is not
    ready, nothing is called afterwards and the world is left as the wait
    left it, snapshot object included. *)
Theorem failed_wait_keeps_the_snapshot st req pod wso sts (w1 w2 : W)
    (ready : bool) (werr : option error) :
  exists_with m st (tsq_Id req) pod wso sts →
  pvc_running X wso sts →
  tsq_ReturnImmediately req = false →
  create_in X m st wso = (None, w1) →
  waitForWorkspaceVolumeSnapshotReady m w1 (snapshot_name_at m st wso) = ((ready, werr), w2) →
  world (snd (TakeSnapshot X m req st)) = w2
  ∧ calls_of st (TakeSnapshot X m req st)
    = [CallFindWorkspacePod (tsq_Id req); CallGetWorkspaceObjects pod; CallTimeNow;
       create_call X m st wso;
       CallWaitForWorkspaceVolumeSnapshotReady (snapshot_name_at m st wso)].
Proof.
  intros Hex Hpvc Hri Hcreate Hwait.
  rewrite (TakeSnapshot_pvc_waited X m st req pod wso sts w1 w2 ready werr) by done.
  by rewrite calls_of_app.
Qed.

End Strategy.

(** TakeSnapshot(w3, returnImmediately) while the snapshotter is down: the
    name comes back although the snapshot will not become ready. *)
Lemma immediate_snapshot_not_awaited_witness :
  fst (TakeSnapshot Scenario.X Scenario.m
         {| tsq_Id := "w3"; tsq_ReturnImmediately := true |}
         (Scenario.start Scenario.cluster_slow))
  = inl {| tsr_Url := snapshot_name_at Scenario.m (Scenario.start Scenario.cluster_slow)
                        (Scenario.objects Scenario.w3) |}.
Proof.
  refine (proj1 (immediate_snapshot_not_awaited Scenario.X Scenario.m
            (Scenario.start Scenario.cluster_slow)
            {| tsq_Id := "w3"; tsq_ReturnImmediately := true |}
            Scenario.w3 (Scenario.objects Scenario.w3) (Scenario.status Scenario.w3)
            (snd (create_in Scenario.X Scenario.m (Scenario.start Scenario.cluster_slow)
                    (Scenario.objects Scenario.w3)))
            _ scenario_pvc_running eq_refl _)).
  - apply scenario_exists. vm_compute. reflexivity.
  - vm_compute. reflexivity.
Defined.

(** ControlAdmission(w5, ADMIT_EVERYONE) on the workspace that is still
    being created. *)
Lemma admission_open_outside_stopping_witness :
  fst (ControlAdmission Scenario.X Scenario.m {| caq_Id := "w5"; caq_Level := 1 |}
         (Scenario.start Scenario.cluster))
  = inl Build_ControlAdmissionResponse.
Proof.
  rewrite (admission_open_outside_stopping Scenario.X Scenario.m
             (Scenario.start Scenario.cluster) {| caq_Id := "w5"; caq_Level := 1 |}
             Scenario.w5 (Scenario.objects Scenario.w5) (Scenario.status Scenario.w5)
             "ADMIT_EVERYONE"
             (snd (Sim.markWorkspace Scenario.cluster "w5"
                     (addMark "gitpod/admission" "admit_everyone")))).
  - reflexivity.
  - apply scenario_exists. vm_compute. reflexivity.
  - vm_compute. discriminate.
  - vm_compute. discriminate.
  - vm_compute. reflexivity.
  - vm_compute. reflexivity.
Defined.

(** The synchronous TakeSnapshot(w3) that fails while the snapshotter is
    down leaves the snapshot object in the cluster. *)
Lemma failed_wait_keeps_the_snapshot_witness :
  Sim.snapshots
    (world (snd (TakeSnapshot Scenario.X Scenario.m
                   {| tsq_Id := "w3"; tsq_ReturnImmediately := false |}
                   (Scenario.start Scenario.cluster_slow))))
  !! "snapshot-w3-1667347200000000000"
  = Some false.
Proof.
  rewrite (proj1 (failed_wait_keeps_the_snapshot Scenario.X Scenario.m
             (Scenario.start Scenario.cluster_slow)
             {| tsq_Id := "w3"; tsq_ReturnImmediately := false |}
             Scenario.w3 (Scenario.objects Scenario.w3) (Scenario.status Scenario.w3)
             (snd (create_in Scenario.X Scenario.m (Scenario.start Scenario.cluster_slow)
                     (Scenario.objects Scenario.w3)))
             (snd (create_in Scenario.X Scenario.m (Scenario.start Scenario.cluster_slow)
                     (Scenario.objects Scenario.w3)))
             false None
             ltac:(apply scenario_exists; vm_compute; reflexivity)
             scenario_pvc_running eq_refl
             ltac:(vm_compute; reflexivity) ltac:(vm_compute; reflexivity))).
  vm_compute. reflexivity.
Defined.

(** Alice logs in, then logs out: every method is refused. *)
Lemma clients_all_or_none_witness :
  Toolbox.precheck Toolbox.getWorkspace
    (Toolbox.after None [Toolbox.LoggedIn (Some Toolbox.alice); Toolbox.LoggedOut])
  = inl (Toolbox.IllegalStateException "No client").
Proof.
  destruct (clients_all_or_none None
              [Toolbox.LoggedIn (Some Toolbox.alice); Toolbox.LoggedOut])
    as [Hnone | (acc & Hacc & _)].
  - apply Hnone.
  - vm_compute in Hacc. discriminate Hacc.
Defined.
